(** * goncurses: the variadic coordinate convention of the window API

    A shallow embedding of [Window.AddChar], [Window.GetChar] and
    [Window.Print] of the goncurses binding.  The three methods take a
    variadic argument list, decide from its length (and, for [Print], from
    the dynamic type of its first elements) whether leading elements are
    screen coordinates, and then forward one call to the ncurses library.

    The ncurses library itself, cgo and package [fmt] are not part of the
    binding: calls into ncurses are recorded in a trace, and the answers of
    the library come from an oracle.

    A second part embeds the functions of the binding that guard or
    prepare their call ([HalfDelay], [InitPair], [StartColor], [GetMouse],
    [Sync], [GetString]) and the arrays of the menu extension ([NewMenu],
    [SetItems], [Items], [Spacing]). *)

From Stdlib Require Import ZArith List String Ascii Bool Lia DecimalString.
Import ListNotations.

Open Scope string_scope.
Open Scope list_scope.
Open Scope Z_scope.

(** ** Go values and run-time panics *)

(** The dynamic values an [interface{}] argument of [Print] can hold.
    Go's universe of types is open; the model keeps the predeclared types
    that matter to the convention ([int], [string]), two more that are
    neither ([bool], [int64]) and the nil interface value. *)
Inductive Value : Type :=
| VNil
| VInt (n : Z)
| VString (s : string)
| VBool (b : bool)
| VInt64 (n : Z).

(** The run-time panics the three methods can raise. *)
Inductive panic : Type :=
| IndexOutOfRange   (* args[i] or args[i:] outside the slice *)
| TypeAssertion     (* v.(T) on a value whose dynamic type is not T *)
| NilDereference.   (* method call on the nil reflect.Type *)

(** [reflect.TypeOf(v)] followed by [String()]: the name of the dynamic
    type of [v]; [reflect.TypeOf(nil)] is the nil [Type], which has no
    name. *)
Definition TypeOf (v : Value) : option string :=
  match v with
  | VNil => None
  | VInt _ => Some "int"
  | VString _ => Some "string"
  | VBool _ => Some "bool"
  | VInt64 _ => Some "int64"
  end.

(** ** The ncurses calls the methods forward *)

(** A [*Window] is the address of a C [WINDOW]. *)
Definition Window : Type := Z.

(** One constructor per C function called by the three methods, with the
    arguments as they arrive on the C side. *)
Inductive DriverCall : Type :=
| waddch (w : Window) (ch : Z)
| mvwaddch (w : Window) (y x : Z) (ch : Z)
| wgetch (w : Window)
| mvwgetch (w : Window) (y x : Z)
| waddstr (w : Window) (str : string)
| mvwaddstr (w : Window) (y x : Z) (str : string).

Definition trace : Type := list DriverCall.

(** ** Conversions to C types *)

(** Go's [int] is 32 or 64 bits wide, depending on the platform; the
    methods do no arithmetic on their arguments beyond [count += 1], which
    stays below 3, so an [int] is modelled as a [Z].

    [C.int(v)]: conversion of a Go integer to the 32-bit signed C [int];
    the value wraps around modulo 2^32. *)
Definition C_int (v : Z) : Z := (v + 2 ^ 31) mod 2 ^ 32 - 2 ^ 31.

(** What the C side reads from [C.CString(s)]: the copy is NUL-terminated,
    so a C function sees the bytes of [s] before its first NUL byte.  The
    matching [defer C.free] only releases the copy and is not modelled. *)
Fixpoint C_CString (s : string) : string :=
  match s with
  | EmptyString => EmptyString
  | String c s' => if Ascii.eqb c zero then EmptyString
                   else String c (C_CString s')
  end.

(** ** A fragment of [fmt.Sprintf]

    Package [fmt] belongs to Go's standard library.  [Print] is defined
    below over an arbitrary formatter; this fragment is the instance used
    for the concrete calls of the documentation.  It covers the verbs
    [%v], [%s], [%d] and [%%] without flags or widths, with the error
    strings package [fmt] documents for a wrong, missing or extra operand;
    any other verb is rendered as a bad verb. *)
Module GoFmt.

Local Open Scope string_scope.

Definition decimal (n : Z) : string := NilZero.string_of_int (Z.to_int n).

Definition typeName (v : Value) : string :=
  match TypeOf v with
  | Some name => name
  | None => "<nil>"
  end.

(** The default format, verb [%v]. *)
Definition fmtV (v : Value) : string :=
  match v with
  | VNil => "<nil>"
  | VInt n => decimal n
  | VString s => s
  | VBool true => "true"
  | VBool false => "false"
  | VInt64 n => decimal n
  end.

Definition typed (v : Value) : string :=
  match v with
  | VNil => "<nil>"
  | _ => typeName v ++ "=" ++ fmtV v
  end.

Definition badVerb (c : ascii) (v : Value) : string :=
  "%!" ++ String c ("(" ++ typed v ++ ")").

Definition verb (c : ascii) (v : Value) : string :=
  match c, v with
  | "v"%char, _ => fmtV v
  | "s"%char, VString s => s
  | "d"%char, VInt n => decimal n
  | "d"%char, VInt64 n => decimal n
  | _, _ => badVerb c v
  end.

Fixpoint extra (a : list Value) : string :=
  match a with
  | [] => ""
  | [v] => typed v
  | v :: a' => typed v ++ ", " ++ extra a'
  end.

(** Operands left over once the format is exhausted. *)
Definition extraTail (a : list Value) : string :=
  match a with
  | [] => ""
  | _ => "%!(EXTRA " ++ extra a ++ ")"
  end.

Fixpoint doPrintf (format : string) (a : list Value) : string :=
  match format with
  | EmptyString => extraTail a
  | String "%"%char EmptyString => "%!(NOVERB)" ++ extraTail a
  | String "%"%char (String c rest) =>
      if Ascii.eqb c "%"%char then String "%"%char (doPrintf rest a)
      else match a with
           | [] => "%!" ++ String c ("(MISSING)" ++ doPrintf rest [])
           | v :: a' => verb c v ++ doPrintf rest a'
           end
  | String c rest => String c (doPrintf rest a)
  end.

Definition Sprintf (format : string) (a : list Value) : string :=
  doPrintf format a.

End GoFmt.

(** ** Computations that call ncurses and may panic

    A computation threads the trace of the ncurses calls made so far and
    ends with a value or with a panic; a panic keeps the trace it was
    raised in, so the calls made before it stay visible. *)
Definition M (A : Type) : Type := trace -> trace * (A + panic).

Definition ret {A : Type} (a : A) : M A := fun t => (t, inl a).

Definition bind {A B : Type} (m : M A) (k : A -> M B) : M B :=
  fun t => match m t with
           | (t', inl a) => k a t'
           | (t', inr p) => (t', inr p)
           end.

Definition throw {A : Type} (p : panic) : M A := fun t => (t, inr p).

Declare Scope go_scope.
Delimit Scope go_scope with go.
Notation "x <- m ;; k" := (bind m (fun x => k))
  (at level 61, m at next level, right associativity) : go_scope.
Open Scope go_scope.

(** A computation is pure when it leaves the trace as it found it and its
    outcome does not depend on the trace. *)
Definition pure {A : Type} (m : M A) : Prop :=
  exists r : A + panic, forall t : trace, m t = (t, r).

(** A computation started in trace [t] fails locally when it ends in a
    panic with no call added to [t]. *)
Definition fails_locally {A : Type} (m : M A) (t : trace) : Prop :=
  exists p : panic, m t = (t, inr p).

(** [len(s)] *)
Definition len {A : Type} (s : list A) : Z := Z.of_nat (List.length s).

(** [s[i]]: panics outside [0 <= i < len(s)]. *)
Definition index {A : Type} (s : list A) (i : Z) : M A :=
  if i <? 0 then throw IndexOutOfRange
  else match nth_error s (Z.to_nat i) with
       | Some v => ret v
       | None => throw IndexOutOfRange
       end.

(** [s[i:]]: panics outside [0 <= i <= len(s)]. *)
Definition slice_from {A : Type} (s : list A) (i : Z) : M (list A) :=
  if (i <? 0) || (i >? len s) then throw IndexOutOfRange
  else ret (skipn (Z.to_nat i) s).

(** [reflect.TypeOf(v).String()] *)
Definition TypeOf_String (v : Value) : M string :=
  match TypeOf v with
  | Some name => ret name
  | None => throw NilDereference
  end.

(** [v.(int)] *)
Definition assert_int (v : Value) : M Z :=
  match v with
  | VInt n => ret n
  | _ => throw TypeAssertion
  end.

(** [v.(string)] *)
Definition assert_string (v : Value) : M string :=
  match v with
  | VString s => ret s
  | _ => throw TypeAssertion
  end.

(** ** The local variables of the coordinate scan

    [count], [y] and [x] are the locals of the three methods.  The source
    keeps no flag for "a y was taken" or "an x was taken": [hasY] and
    [hasX] are ghost fields, set in the branch that assigns [y], resp. [x],
    and read by no code. *)
Record Locals : Type := mkLocals {
  count : Z;
  y : Z;
  x : Z;
  hasY : bool;
  hasX : bool
}.

(** [var count, y, x int] *)
Definition zeroed : Locals :=
  {| count := 0; y := 0; x := 0; hasY := false; hasX := false |}.

(** [y = v; count += 1] *)
Definition take_y (v : Z) (l : Locals) : Locals :=
  {| count := count l + 1; y := v; x := x l; hasY := true; hasX := hasX l |}.

(** [x = v; count += 1] *)
Definition take_x (v : Z) (l : Locals) : Locals :=
  {| count := count l + 1; y := y l; x := v; hasY := hasY l; hasX := true |}.

(** The elements the scan did not take as coordinates, [args[count:]]:
    the payload [args[count]] followed by [args[count+1:]]. *)
Definition rest {A : Type} (args : list A) (l : Locals) : list A :=
  skipn (Z.to_nat (count l)) args.

Section Binding.

(** The width of ncurses' [chtype], an unsigned integer type declared in
    [ncurses.h]. *)
Variable chtype_bits : Z.

(** What ncurses returns from a call, given the calls made before it. *)
Variable driver : trace -> DriverCall -> Z.

(** [fmt.Sprintf] *)
Variable Sprintf : string -> list Value -> string.

(** [C.chtype(v)] *)
Definition C_chtype (v : Z) : Z := v mod 2 ^ chtype_bits.

(** A call into ncurses: recorded, and answered by the library. *)
Definition call (c : DriverCall) : M Z :=
  fun t => (t ++ [c], inl (driver t c)).

(** *** [func (w *Window) AddChar(args ...int)] *)

(** The two conditionals on [len(args)]. *)
Definition AddChar_coords (args : list Z) : M Locals :=
  let l := zeroed in
  l <- (if len args >? 1
        then a0 <- index args 0 ;; ret (take_y a0 l)
        else ret l) ;;
  l <- (if len args >? 2
        then a1 <- index args 1 ;; ret (take_x a1 l)
        else ret l) ;;
  ret l.

(** The scan and [cattr |= C.int(args[count])], with [cattr] zero
    before. *)
Definition AddChar_resolve (args : list Z) : M (Locals * Z) :=
  let cattr := 0 in
  l <- AddChar_coords args ;;
  a <- index args (count l) ;;
  ret (l, Z.lor cattr (C_int a)).

Definition AddChar (w : Window) (args : list Z) : M unit :=
  r <- AddChar_resolve args ;;
  let '(l, cattr) := r in
  if count l >? 0
  then _ <- call (mvwaddch w (C_int (y l)) (C_int (x l)) (C_chtype cattr)) ;;
       ret tt
  else _ <- call (waddch w (C_chtype cattr)) ;;
       ret tt.

(** *** [func (w *Window) GetChar(coords ...int) int] *)

Definition GetChar_coords (coords : list Z) : M Locals :=
  let l := zeroed in
  l <- (if len coords >? 1
        then c0 <- index coords 0 ;; ret (take_y c0 l)
        else ret l) ;;
  l <- (if len coords >? 2
        then c1 <- index coords 1 ;; ret (take_x c1 l)
        else ret l) ;;
  ret l.

Definition GetChar (w : Window) (coords : list Z) : M Z :=
  l <- GetChar_coords coords ;;
  if count l >? 0
  then call (mvwgetch w (C_int (y l)) (C_int (x l)))
  else call (wgetch w).

(** *** [func (w *Window) Print(args ...interface{})] *)

(** The two conditionals on [len(args)], each with its inner test on the
    dynamic type.  The second is not nested in the first. *)
Definition Print_coords (args : list Value) : M Locals :=
  let l := zeroed in
  l <- (if len args >? 1
        then a0 <- index args 0 ;;
             ty <- TypeOf_String a0 ;;
             if String.eqb ty "int"
             then n <- assert_int a0 ;; ret (take_y n l)
             else ret l
        else ret l) ;;
  l <- (if len args >? 2
        then a1 <- index args 1 ;;
             ty <- TypeOf_String a1 ;;
             if String.eqb ty "int"
             then n <- assert_int a1 ;; ret (take_x n l)
             else ret l
        else ret l) ;;
  ret l.

(** The scan and
    [cstr := C.CString(fmt.Sprintf(args[count].(string), args[count+1:]...))]. *)
Definition Print_resolve (args : list Value) : M (Locals * string) :=
  l <- Print_coords args ;;
  a <- index args (count l) ;;
  format <- assert_string a ;;
  operands <- slice_from args (count l + 1) ;;
  ret (l, C_CString (Sprintf format operands)).

Definition Print (w : Window) (args : list Value) : M unit :=
  r <- Print_resolve args ;;
  let '(l, cstr) := r in
  if count l >? 0
  then _ <- call (mvwaddstr w (C_int (y l)) (C_int (x l)) cstr) ;; ret tt
  else _ <- call (waddstr w cstr) ;; ret tt.

End Binding.

(** An ncurses that answers 0, the value of [OK], to every call; used to
    run the methods on concrete argument lists. *)
Definition always_OK : trace -> DriverCall -> Z := fun _ _ => 0.

(** The argument lists of [Print] with the format in place: a string
    after at most two leading ints. *)
Definition format_in_place (args : list Value) : bool :=
  match args with
  | VString _ :: _ => true
  | VInt _ :: VString _ :: _ => true
  | VInt _ :: VInt _ :: VString _ :: _ => true
  | _ => false
  end.

(** * The rest of the binding

    The functions of the two source files that do more than forward one
    call: the guards of [HalfDelay], [InitPair], [StartColor], [GetMouse]
    and [GetString], the dispatch of [Sync], and, in the menu extension,
    the arrays built by [NewMenu] and [SetItems] and read by [Items], and
    [Spacing]. *)

(** [C.short(v)]: conversion to the 16-bit signed C [short]. *)
Definition C_short (v : Z) : Z := (v + 2 ^ 15) mod 2 ^ 16 - 2 ^ 15.

(** The [ACS_] constants.  The first block counts up from
    [iota + 4194406], [iota] being the position in the block; the last
    seven are written out. *)
Definition ACS_DEGREE : Z := 0 + 4194406.
Definition ACS_PLMINUS : Z := 1 + 4194406.
Definition ACS_BOARD : Z := 2 + 4194406.
Definition ACS_LANTERN : Z := 3 + 4194406.
Definition ACS_LRCORNER : Z := 4 + 4194406.
Definition ACS_URCORNER : Z := 5 + 4194406.
Definition ACS_LLCORNER : Z := 6 + 4194406.
Definition ACS_ULCORNER : Z := 7 + 4194406.
Definition ACS_PLUS : Z := 8 + 4194406.
Definition ACS_S1 : Z := 9 + 4194406.
Definition ACS_S3 : Z := 10 + 4194406.
Definition ACS_HLINE : Z := 11 + 4194406.
Definition ACS_S7 : Z := 12 + 4194406.
Definition ACS_S9 : Z := 13 + 4194406.
Definition ACS_LTEE : Z := 14 + 4194406.
Definition ACS_RTEE : Z := 15 + 4194406.
Definition ACS_BTEE : Z := 16 + 4194406.
Definition ACS_TTEE : Z := 17 + 4194406.
Definition ACS_VLINE : Z := 18 + 4194406.
Definition ACS_LEQUAL : Z := 19 + 4194406.
Definition ACS_GEQUAL : Z := 20 + 4194406.
Definition ACS_PI : Z := 21 + 4194406.
Definition ACS_NEQUAL : Z := 22 + 4194406.
Definition ACS_STERLING : Z := 23 + 4194406.
Definition ACS_BULLET : Z := 24 + 4194406.
Definition ACS_LARROW : Z := 4194347.
Definition ACS_RARROW : Z := 4194348.
Definition ACS_DARROW : Z := 4194349.
Definition ACS_UARROW : Z := 4194350.
Definition ACS_BLOCK : Z := 4194352.
Definition ACS_DIAMOND : Z := 4194400.
Definition ACS_CKBOARD : Z := 4194401.

(** The constants in the order of the source. *)
Definition ACS : list Z :=
  [ACS_DEGREE; ACS_PLMINUS; ACS_BOARD; ACS_LANTERN; ACS_LRCORNER;
   ACS_URCORNER; ACS_LLCORNER; ACS_ULCORNER; ACS_PLUS; ACS_S1; ACS_S3;
   ACS_HLINE; ACS_S7; ACS_S9; ACS_LTEE; ACS_RTEE; ACS_BTEE; ACS_TTEE;
   ACS_VLINE; ACS_LEQUAL; ACS_GEQUAL; ACS_PI; ACS_NEQUAL; ACS_STERLING;
   ACS_BULLET; ACS_LARROW; ACS_RARROW; ACS_DARROW; ACS_UARROW; ACS_BLOCK;
   ACS_DIAMOND; ACS_CKBOARD].

(** The options of [Sync]: [iota] from 0. *)
Definition SYNC_NONE : Z := 0.
Definition SYNC_CURSOR : Z := 1.
Definition SYNC_DOWN : Z := 2.
Definition SYNC_UP : Z := 3.

(** ** Library calls and their replies *)

(** A [*Menu] and a [*MenuItem] are addresses of C structures; [nil] is
    address 0. *)
Definition Menu : Type := Z.
Definition MenuItem : Type := Z.

(** The C functions called by the functions modelled below, with the
    arguments as they arrive on the C side.  An array argument is shown by
    the cells the pointer gives access to; [wgetnstr] is shown with the
    size of the buffer it is handed. *)
Inductive LibCall : Type :=
| halfdelay (tenths : Z)
| init_pair (pair fg bg : Z)
| has_colors
| start_color
| has_mouse
| getmouse
| wsyncdown (w : Window)
| wcursyncup (w : Window)
| wsyncup (w : Window)
| wgetnstr (w : Window) (buffer : Z) (n : Z)
| new_menu (citems : list MenuItem)
| set_menu_items (m : Menu) (citems : list MenuItem)
| menu_items (m : Menu)
| item_count (m : Menu)
| menu_spacing (m : Menu).

(** The C structure [MEVENT]. *)
Record MEVENT : Type := mkMEVENT {
  ev_id : Z;
  ev_x : Z;
  ev_y : Z;
  ev_z : Z;
  ev_bstate : Z
}.

(** What a C function hands back: its return value, [errno] after it, and
    what it stored through its pointer arguments or left behind the
    pointer it returned. *)
Record Reply : Type := mkReply {
  r_code : Z;                 (* the return value *)
  r_errno : Z;                (* errno after the call *)
  r_event : MEVENT;           (* stored by getmouse *)
  r_ints : Z * Z * Z;         (* stored by menu_spacing: desc, row, col *)
  r_array : list MenuItem;    (* the array behind the result of menu_items *)
  r_text : string             (* the buffer as wgetnstr left it *)
}.

(** Ways these functions stop short: a Go panic of the kinds above, the
    panic of [make] on a negative length, a C read outside an array, and
    the panic of cgo's check of a pointer argument that gives C access to
    a pointer into Go memory. *)
Inductive fault : Type :=
| GoPanic (p : panic)
| MakeLenOutOfRange
| ReadOutsideArray
| CgoPointerCheck.

(** Computations over the trace of library calls. *)
Definition Lib (A : Type) : Type :=
  list LibCall -> list LibCall * (A + fault).

Definition lret {A : Type} (a : A) : Lib A := fun t => (t, inl a).

Definition lbind {A B : Type} (m : Lib A) (k : A -> Lib B) : Lib B :=
  fun t => match m t with
           | (t', inl a) => k a t'
           | (t', inr f) => (t', inr f)
           end.

Definition lthrow {A : Type} (f : fault) : Lib A := fun t => (t, inr f).

Declare Scope lib_scope.
Delimit Scope lib_scope with lib.
Notation "x <~ m ;; k" := (lbind m (fun x => k))
  (at level 61, m at next level, right associativity) : lib_scope.
Open Scope lib_scope.

(** [os.Error], [error]: nil or a message. *)
Definition GoError : Type := option string.

(** [make([]T, n)] for a pointer or integer [T]: [n] zero cells. *)
Definition make (n : Z) : Lib (list Z) :=
  if n <? 0 then lthrow MakeLenOutOfRange
  else lret (repeat 0 (Z.to_nat n)).

(** [s[i]] and [&s[i]]: the cell must exist. *)
Definition cell (s : list Z) (i : Z) : Lib Z :=
  if i <? 0 then lthrow (GoPanic IndexOutOfRange)
  else match nth_error s (Z.to_nat i) with
       | Some v => lret v
       | None => lthrow (GoPanic IndexOutOfRange)
       end.

(** [s[i] = v] *)
Definition assign (s : list Z) (i v : Z) : Lib (list Z) :=
  if (i <? 0) || (i >=? len s) then lthrow (GoPanic IndexOutOfRange)
  else lret (firstn (Z.to_nat i) s ++ v :: skipn (S (Z.to_nat i)) s).

(** [ITEM* menu_item_at(ITEM** ilist, int i) { return ilist[i]; }], the C
    helper of the menu extension, on the array [ilist] points to. *)
Definition menu_item_at (ilist : list MenuItem) (i : Z) : Lib MenuItem :=
  if i <? 0 then lthrow ReadOutsideArray
  else match nth_error ilist (Z.to_nat i) with
       | Some item => lret item
       | None => lthrow ReadOutsideArray
       end.

(** [C.GoString(p)]: the bytes at [p] before the first NUL. *)
Definition GoString (buffer : string) : string := C_CString buffer.

Section Library.

(** The C library: the reply to a call, given the calls made before. *)
Variable lib : list LibCall -> LibCall -> Reply.

(** [ERR] and [OK] of [ncurses.h], [E_OK] of [eti.h], and the value of
    the C variable [COLOR_PAIRS]. *)
Variable ERR : Z.
Variable OK : Z.
Variable E_OK : Z.
Variable COLOR_PAIRS : Z.

(** The width of Go's [int]. *)
Variable int_bits : Z.

(** [ncursesError], which turns an error number into an [error]; its
    source is not part of the two files. *)
Variable ncursesError : Z -> GoError.

(** The width of Go's [uintptr], the type under [syscall.Errno]. *)
Variable uintptr_bits : Z.

(** Whether an address lies in memory allocated by Go, as the address of
    a [new(MenuItem)] does and the address of an item made by C's
    [new_item] does not. *)
Variable in_go_heap : Z -> bool.

(** [int(v)] *)
Definition Go_int (v : Z) : Z :=
  (v + 2 ^ (int_bits - 1)) mod 2 ^ int_bits - 2 ^ (int_bits - 1).

(** [syscall.Errno(v)] *)
Definition Errno (v : Z) : Z := v mod 2 ^ uintptr_bits.

Definition lcall (c : LibCall) : Lib Reply :=
  fun t => (t ++ [c], inl (lib t c)).

(** A C [bool] read as a Go [bool]. *)
Definition truth (r : Reply) : bool := negb (r_code r =? 0).

(** *** [func HalfDelay(delay int) os.Error] *)
Definition HalfDelay (delay : Z) : Lib GoError :=
  let cerr := 0 in
  cerr <~ (if delay >? 0
           then r <~ lcall (halfdelay (C_int delay)) ;; lret (r_code r)
           else lret cerr) ;;
  if cerr =? ERR
  then lret (Some "Unable to set delay mode")
  else lret None.

(** *** [func InitPair(pair byte, fg, bg int) os.Error] *)
Definition InitPair (pair fg bg : Z) : Lib GoError :=
  if (pair =? 0) || (C_int pair >? C_int (COLOR_PAIRS - 1))
  then lret (Some "Invalid color pair selected")
  else r <~ lcall (init_pair (C_short pair) (C_short fg) (C_short bg)) ;;
       if r_code r =? ERR
       then lret (Some "Failed to init color pair")
       else lret None.

(** *** [func StartColor() os.Error] *)
Definition StartColor : Lib GoError :=
  r <~ lcall has_colors ;;
  if Bool.eqb (truth r) false
  then lret (Some "Terminal does not support colors")
  else r <~ lcall start_color ;;
       if r_code r =? ERR
       then lret (Some "Failed to enable color mode")
       else lret None.

(** *** [func GetMouse() ([]int, os.Error)] *)
Definition GetMouse : Lib (list Z * GoError) :=
  r <~ lcall has_mouse ;;
  if negb (Bool.eqb (truth r) true)
  then lret ([], Some "Mouse support not enabled")
  else r <~ lcall getmouse ;;
       let event := r_event r in
       if negb (r_code r =? OK)
       then lret ([], Some "Failed to get mouse event")
       else lret ([Go_int (ev_x event); Go_int (ev_y event);
                   Go_int (ev_z event); Go_int (ev_id event);
                   Go_int (ev_bstate event)], None).

(** *** [func (w *Window) Sync(sync int)] *)
Definition Sync (w : Window) (sync : Z) : Lib unit :=
  if sync =? SYNC_DOWN then _ <~ lcall (wsyncdown w) ;; lret tt
  else if sync =? SYNC_CURSOR then _ <~ lcall (wcursyncup w) ;; lret tt
  else if sync =? SYNC_UP then _ <~ lcall (wsyncup w) ;; lret tt
  else lret tt.

(** *** [func (w *Window) GetString(n int) (string, os.Error)] *)
Definition GetString (w : Window) (n : Z) : Lib (string * GoError) :=
  cstr <~ make n ;;
  _ <~ cell cstr 0 ;;
  r <~ lcall (wgetnstr w (len cstr) (C_int n)) ;;
  if r_code r =? ERR
  then lret ("", Some "Failed to retrieve string from input stream")
  else lret (GoString (r_text r), None).

(** *** The menu extension *)

(** [for index, item := range items { citems[index] = item }], from
    [index] on. *)
Fixpoint copy_items (citems : list MenuItem) (index : Z)
         (items : list MenuItem) : Lib (list MenuItem) :=
  match items with
  | [] => lret citems
  | item :: items' =>
      citems <~ assign citems index item ;;
      copy_items citems (index + 1) items'
  end.

(** A pointer into Go memory; nil is none. *)
Definition is_go_pointer (p : Z) : bool := negb (p =? 0) && in_go_heap p.

(** The check cgo makes, before the C function runs, of an argument that
    points to a cell of a Go array of pointers: the call panics when any
    cell of the array holds a pointer into Go memory. *)
Definition cgoCheckPointer (array : list Z) : Lib unit :=
  if existsb is_go_pointer array then lthrow CgoPointerCheck else lret tt.

(** [func NewMenu(items []*MenuItem)], which returns a [*Menu] and an
    [error]. *)
Definition NewMenu (items : list MenuItem) : Lib (Menu * GoError) :=
  citems <~ make (len items + 1) ;;
  citems <~ copy_items citems 0 items ;;
  citems <~ assign citems (len items) 0 ;;
  _ <~ cell citems 0 ;;
  _ <~ cgoCheckPointer citems ;;
  r <~ lcall (new_menu citems) ;;
  lret (r_code r, ncursesError (r_errno r)).

(** [func (m *Menu) SetItems(items []*MenuItem) error] *)
Definition SetItems (m : Menu) (items : list MenuItem) : Lib GoError :=
  citems <~ make (len items + 1) ;;
  citems <~ copy_items citems 0 items ;;
  citems <~ assign citems (len items) 0 ;;
  _ <~ cell citems 0 ;;
  _ <~ cgoCheckPointer citems ;;
  r <~ lcall (set_menu_items m citems) ;;
  lret (ncursesError (Errno (r_code r))).

(** [func (m *Menu) Count() int] *)
Definition Count (m : Menu) : Lib Z :=
  r <~ lcall (item_count m) ;; lret (Go_int (r_code r)).

(** [for index := 0; index < count; index++], with at most [passes]
    passes left. *)
Fixpoint Items_loop (citems mitems : list MenuItem) (count index : Z)
         (passes : nat) : Lib (list MenuItem) :=
  match passes with
  | O => lret mitems
  | S passes' =>
      if index <? count
      then item <~ menu_item_at citems (C_int index) ;;
           mitems <~ assign mitems index item ;;
           Items_loop citems mitems count (index + 1) passes'
      else lret mitems
  end.

(** [func (m *Menu) Items() []*MenuItem]; the loop makes [count]
    passes. *)
Definition Items (m : Menu) : Lib (list MenuItem) :=
  r <~ lcall (menu_items m) ;;
  let citems := r_array r in
  count <~ Count m ;;
  mitems <~ make count ;;
  Items_loop citems mitems count 0 (Z.to_nat count).

(** [func (m *Menu) Spacing() (int, int, int)] *)
Definition Spacing (m : Menu) : Lib (Z * Z * Z) :=
  r <~ lcall (menu_spacing m) ;;
  let '(desc, row, col) := r_ints r in
  if negb (r_code r =? E_OK)
  then lret (Go_int desc, Go_int row, Go_int col)
  else lret (0, 0, 0).

End Library.

(** A library in which every call succeeds with return value 0, a mouse
    event at column 3, row 4, and three stored items. *)
Definition quiet_lib : list LibCall -> LibCall -> Reply :=
  fun _ c =>
    {| r_code := match c with
                 | has_colors | has_mouse => 1
                 | item_count _ => 3
                 | _ => 0
                 end;
       r_errno := 0;
       r_event := mkMEVENT 0 3 4 0 2;
       r_ints := (1, 1, 1);
       r_array := [101; 102; 103; 0];
       r_text := "typed" |}.

(** A terminal without colours or mouse, in which every other call fails
    with -1 and stores nothing. *)
Definition bare_lib : list LibCall -> LibCall -> Reply :=
  fun _ c =>
    {| r_code := match c with
                 | has_colors | has_mouse => 0
                 | _ => -1
                 end;
       r_errno := 22;
       r_event := mkMEVENT 0 0 0 0 0;
       r_ints := (0, 0, 0);
       r_array := [];
       r_text := "" |}.

(** A process whose Go memory starts at address 4096 and whose C memory
    lies below it. *)
Definition go_heap_from_4096 (p : Z) : bool := p >=? 4096.

(** The argument lists on which [Print] returns: a format alone or with
    one operand; a format with more operands, the first of them neither
    nil nor an int; y and a format; y, x and a format. *)
Definition Print_accepts (args : list Value) : bool :=
  match args with
  | [VString _] => true
  | [VString _; _] => true
  | VString _ :: v :: _ :: _ =>
      match v with
      | VNil | VInt _ => false
      | _ => true
      end
  | VInt _ :: VString _ :: _ => true
  | VInt _ :: VInt _ :: VString _ :: _ => true
  | _ => false
  end.

(** The argument lists in which the scan of [Print] asks the type of a
    nil: a nil first element of two or more, or a nil second element of
    three or more. *)
Definition nil_inspected (args : list Value) : bool :=
  match args with
  | VNil :: _ :: _ => true
  | _ :: VNil :: _ :: _ => true
  | _ => false
  end.

(** * Properties *)

(** ** Lengths and conversions *)

(** [C.int] leaves every value of the 32-bit range unchanged. *)
Lemma C_int_small (v : Z) : - 2 ^ 31 <= v < 2 ^ 31 -> C_int v = v.
Proof.
  intros Hv; unfold C_int.
  rewrite Z.mod_small by lia; lia.
Qed.

(** ** Running the monad *)

Lemma slice_from_ok {A : Type} (s : list A) (i : Z) (t : trace) :
  0 <= i <= len s ->
  slice_from s i t = (t, inl (skipn (Z.to_nat i) s)).
Proof.
  intros [Hlo Hhi]; unfold slice_from.
  replace (i <? 0) with false by (symmetry; apply Z.ltb_ge; lia).
  replace (i >? len s) with false
    by (symmetry; rewrite Z.gtb_ltb; apply Z.ltb_ge; lia).
  reflexivity.
Qed.

Lemma index_ok {A : Type} (s : list A) (i : Z) (v : A) (t : trace) :
  0 <= i -> nth_error s (Z.to_nat i) = Some v ->
  index s i t = (t, inl v).
Proof.
  intros Hi Hv; unfold index.
  replace (i <? 0) with false by (symmetry; apply Z.ltb_ge; lia).
  rewrite Hv; reflexivity.
Qed.

Lemma index_inv {A : Type} (s : list A) (i : Z) (v : A) (t t' : trace) :
  index s i t = (t', inl v) ->
  t' = t /\ 0 <= i /\ nth_error s (Z.to_nat i) = Some v.
Proof.
  unfold index; destruct (Z.ltb_spec i 0) as [Hneg|Hnn].
  - discriminate.
  - destruct (nth_error s (Z.to_nat i)) as [a|]; [|discriminate].
    intros H; inversion H; subst; auto.
Qed.

Lemma index_in_bounds {A : Type} (s : list A) (i : Z) (t : trace) :
  0 <= i <= len s - 1 -> exists a : A, index s i t = (t, inl a).
Proof.
  intros [Hlo Hhi].
  destruct (nth_error s (Z.to_nat i)) as [a|] eqn:Hnth.
  - exists a; apply index_ok; assumption.
  - apply nth_error_None in Hnth; unfold len in Hhi; lia.
Qed.

Lemma skipn_at {A : Type} (s : list A) (n : nat) (a : A) :
  nth_error s n = Some a -> skipn n s = a :: skipn (S n) s.
Proof.
  revert s; induction n as [|n IH]; intros [|b s] Hnth;
    try discriminate.
  - inversion Hnth; reflexivity.
  - cbn [skipn]; rewrite (IH s Hnth); reflexivity.
Qed.

(** ** Purity of the monad's operations *)

Lemma pure_ret {A : Type} (a : A) : pure (ret a).
Proof. exists (inl a); reflexivity. Qed.

Lemma pure_throw {A : Type} (p : panic) : pure (@throw A p).
Proof. exists (inr p); reflexivity. Qed.

Lemma pure_bind {A B : Type} (m : M A) (k : A -> M B) :
  pure m -> (forall a : A, pure (k a)) -> pure (bind m k).
Proof.
  intros [[a|p] Hm] Hk.
  - destruct (Hk a) as [r Hr]; exists r; intros t.
    unfold bind; rewrite Hm; apply Hr.
  - exists (inr p); intros t; unfold bind; rewrite Hm; reflexivity.
Qed.

Lemma pure_index {A : Type} (s : list A) (i : Z) : pure (index s i).
Proof.
  unfold index; destruct (i <? 0); [apply pure_throw|].
  destruct (nth_error s (Z.to_nat i)); [apply pure_ret | apply pure_throw].
Qed.

Lemma pure_slice_from {A : Type} (s : list A) (i : Z) :
  pure (slice_from s i).
Proof.
  unfold slice_from.
  destruct ((i <? 0) || (i >? len s)); [apply pure_throw | apply pure_ret].
Qed.

Lemma pure_TypeOf_String (v : Value) : pure (TypeOf_String v).
Proof. destruct v; (apply pure_ret || apply pure_throw). Qed.

Lemma pure_assert_int (v : Value) : pure (assert_int v).
Proof. destruct v; (apply pure_ret || apply pure_throw). Qed.

Lemma pure_assert_string (v : Value) : pure (assert_string v).
Proof. destruct v; (apply pure_ret || apply pure_throw). Qed.

Create HintDb go_pure.
#[export] Hint Resolve pure_ret pure_throw pure_index pure_slice_from
  pure_TypeOf_String pure_assert_int pure_assert_string : go_pure.

Ltac pure_steps :=
  repeat first
    [ apply pure_bind; [|intros ?]
    | match goal with
      | |- pure (if ?c then _ else _) => destruct c
      end
    | solve [auto with go_pure] ].

Arguments len : simpl never.
Arguments slice_from : simpl never.
Arguments C_int : simpl never.
Arguments C_chtype : simpl never.
Arguments C_CString : simpl never.

(** Settles a test [len s >? k] on a list whose first cells are known. *)
Ltac len_arith := unfold len in *; cbn [List.length] in *; lia.

Ltac len_decide :=
  match goal with
  | |- context [len ?s >? ?k] =>
      first
        [ replace (len s >? k) with true
            by (symmetry; rewrite Z.gtb_ltb; apply Z.ltb_lt; len_arith)
        | replace (len s >? k) with false
            by (symmetry; rewrite Z.gtb_ltb; apply Z.ltb_ge; len_arith) ]
  end.

(** Unfolding of the methods down to the monad's operations. *)
Ltac go_unfold :=
  unfold Print, Print_resolve, Print_coords,
         AddChar, AddChar_resolve, AddChar_coords,
         GetChar, GetChar_coords.

Ltac go_step :=
  first
    [ progress len_decide
    | rewrite slice_from_ok by len_arith
    | progress cbv - [len slice_from C_int C_chtype C_CString app
                      Z.gtb Z.ltb Z.lor]
    | progress cbn [Z.gtb Z.ltb Z.lor Z.compare Pos.compare
                    Pos.compare_cont] ].

Ltac go_run := go_unfold; repeat go_step.

(** The same on a hypothesis that runs one of the scans. *)
Ltac len_decide_in H :=
  match type of H with
  | context [len ?s >? ?k] =>
      first
        [ replace (len s >? k) with true in H
            by (symmetry; rewrite Z.gtb_ltb; apply Z.ltb_lt; len_arith)
        | replace (len s >? k) with false in H
            by (symmetry; rewrite Z.gtb_ltb; apply Z.ltb_ge; len_arith) ]
  end.

Ltac scan_in H :=
  unfold Print_coords, AddChar_coords, GetChar_coords in H;
  repeat len_decide_in H;
  cbv - [len C_int app] in H.

Section Properties.

Variable chtype_bits : Z.
Variable driver : trace -> DriverCall -> Z.
Variable Sprintf : string -> list Value -> string.

(** *** What the scans establish *)

(** The scan of [AddChar] never panics and never calls ncurses; its
    outcome depends on the length of the list alone. *)
Lemma AddChar_coords_shape (args : list Z) (t : trace) :
  AddChar_coords args t =
  (t, inl match args with
          | [] | [_] => zeroed
          | [a; _] => take_y a zeroed
          | a :: b :: _ :: _ => take_x b (take_y a zeroed)
          end).
Proof.
  destruct args as [|a [|b [|c s]]]; go_run; reflexivity.
Qed.

Lemma GetChar_coords_shape (coords : list Z) (t : trace) :
  GetChar_coords coords t =
  (t, inl match coords with
          | [] | [_] => zeroed
          | [a; _] => take_y a zeroed
          | a :: b :: _ :: _ => take_x b (take_y a zeroed)
          end).
Proof.
  destruct coords as [|a [|b [|c s]]]; go_run; reflexivity.
Qed.

(** What holds of the locals when the scan of [Print] returns. *)
Lemma Print_coords_inv (args : list Value) (t t' : trace) (l : Locals) :
  Print_coords args t = (t', inl l) ->
  t' = t /\
  count l = Z.b2z (hasY l) + Z.b2z (hasX l) /\
  (args <> [] -> count l <= len args - 1) /\
  (if hasY l
   then len args > 1 /\ nth_error args 0 = Some (VInt (y l))
   else y l = 0) /\
  (if hasX l
   then len args > 2 /\ nth_error args 1 = Some (VInt (x l))
   else x l = 0).
Proof.
  destruct args as [|a0 [|a1 [|a2 s]]]; try destruct a0; try destruct a1;
    intros H; scan_in H; inversion H; subst; clear H; cbn;
    repeat split; try discriminate; try reflexivity;
    try (intros Hne; try congruence); len_arith.
Qed.

(** *** The claims *)

(** C1.  One element before the payload is the y coordinate and x stays
    0; two elements before the payload are y and x.  The method then
    forwards the move-then-act call: [AddChar(y, ch)] acts at (y, 0),
    [AddChar(y, x, ch)] at (y, x), [Print(y, fmt, ...)] prints at
    (y, 0) and [Print(y, x, fmt, ...)] at (y, x).  Coordinates reach
    ncurses through the source's [C.int] conversion, which maps 0 to 0
    and every coordinate of the 32-bit range to itself. *)
Theorem leading_elements_are_coordinates :
  forall (w : Window) (row col ch : Z) (format : string)
         (operands : list Value) (t : trace),
    AddChar_coords [row; ch] t = (t, inl (mkLocals 1 row 0 true false)) /\
    AddChar_coords [row; col; ch] t
      = (t, inl (mkLocals 2 row col true true)) /\
    AddChar chtype_bits driver w [row; ch] t
      = (t ++ [mvwaddch w (C_int row) (C_int 0)
                 (C_chtype chtype_bits (C_int ch))], inl tt) /\
    AddChar chtype_bits driver w [row; col; ch] t
      = (t ++ [mvwaddch w (C_int row) (C_int col)
                 (C_chtype chtype_bits (C_int ch))], inl tt) /\
    Print_coords (VInt row :: VString format :: operands) t
      = (t, inl (mkLocals 1 row 0 true false)) /\
    Print driver Sprintf w (VInt row :: VString format :: operands) t
      = (t ++ [mvwaddstr w (C_int row) (C_int 0)
                 (C_CString (Sprintf format operands))], inl tt) /\
    Print_coords (VInt row :: VInt col :: VString format :: operands) t
      = (t, inl (mkLocals 2 row col true true)) /\
    Print driver Sprintf w
          (VInt row :: VInt col :: VString format :: operands) t
      = (t ++ [mvwaddstr w (C_int row) (C_int col)
                 (C_CString (Sprintf format operands))], inl tt) /\
    C_int 0 = 0 /\
    (- 2 ^ 31 <= row < 2 ^ 31 -> C_int row = row) /\
    (- 2 ^ 31 <= col < 2 ^ 31 -> C_int col = col).
Proof.
  intros w row col ch format operands t.
  repeat match goal with
         | |- _ /\ _ => split
         | |- _ -> _ => apply C_int_small
         end.
  all: try (destruct operands as [|v vs]); go_run; reflexivity.
Qed.

(** C2.  A list that holds the payload alone yields no coordinates
    ([hasY] and [hasX] false) and the whole list as [rest]; the plain
    call is forwarded: [AddChar(ch)] is one [waddch], [Print(s)] one
    [waddstr] of the rendered [s], and [Print("hello!")] hands the text
    hello! to [waddstr]. *)
Theorem payload_alone_is_plain_call :
  forall (w : Window) (ch : Z) (payload : Value) (format : string)
         (t : trace),
    AddChar_coords [ch] t = (t, inl (mkLocals 0 0 0 false false)) /\
    rest [ch] (mkLocals 0 0 0 false false) = [ch] /\
    AddChar chtype_bits driver w [ch] t
      = (t ++ [waddch w (C_chtype chtype_bits (C_int ch))], inl tt) /\
    Print_coords [payload] t = (t, inl (mkLocals 0 0 0 false false)) /\
    rest [payload] (mkLocals 0 0 0 false false) = [payload] /\
    Print driver Sprintf w [VString format] t
      = (t ++ [waddstr w (C_CString (Sprintf format []))], inl tt) /\
    Print driver GoFmt.Sprintf w [VString "hello!"] t
      = (t ++ [waddstr w "hello!"], inl tt).
Proof.
  intros w ch payload format t.
  repeat split; go_run; reflexivity.
Qed.

(** Where the element after the coordinates the scan took is a string,
    [Print] uses it as the format, hands every later element to the
    formatter as operands, and forwards the one rendered string in a
    single call: at (y, x) when a coordinate was taken, at the cursor
    otherwise. *)
Lemma Print_renders_found_format :
  forall (w : Window) (args : list Value) (l : Locals)
         (format : string) (t : trace),
    Print_coords args t = (t, inl l) ->
    nth_error args (Z.to_nat (count l)) = Some (VString format) ->
    let line :=
      C_CString (Sprintf format (skipn (Z.to_nat (count l + 1)) args)) in
    Print driver Sprintf w args t =
    (t ++ [if count l >? 0
           then mvwaddstr w (C_int (y l)) (C_int (x l)) line
           else waddstr w line], inl tt).
Proof.
  intros w args l format t Hscan Hfmt line.
  destruct (Print_coords_inv _ _ _ _ Hscan) as (_ & Hcount & Hle & _).
  assert (Hnn : 0 <= count l)
    by (rewrite Hcount; destruct (hasY l), (hasX l); cbn; lia).
  assert (Hlt : count l + 1 <= len args).
  { assert (Hn : (Z.to_nat (count l) < List.length args)%nat)
      by (apply nth_error_Some; rewrite Hfmt; discriminate).
    unfold len; lia. }
  unfold Print, Print_resolve, bind.
  rewrite Hscan, (index_ok _ _ _ _ Hnn Hfmt).
  cbn [assert_string ret].
  rewrite slice_from_ok by lia.
  subst line; cbv beta iota delta [ret].
  destruct (count l >? 0); reflexivity.
Qed.

(** C3, as the code has it.  [Print(y, x, "fmt %s", "world")] prints
    fmt world at (y, x), and a format alone or with one operand is
    rendered at the cursor.  A format followed by two operands or more,
    the first of them an int, is not rendered: the second conditional of
    the scan is not nested in the first, so the int operand is taken as x
    although no y was taken, [count] becomes 1, and the string assertion
    on [args[1]], the operand, panics.  [Print("%d-%d", 1, 2)], whose
    rendering is 1-2, panics. *)
Theorem Print_int_operand_taken_as_x :
  forall (w : Window) (row col n : Z) (format : string) (v v' : Value)
         (operands : list Value) (t : trace),
    Print driver GoFmt.Sprintf w
          [VInt row; VInt col; VString "fmt %s"; VString "world"] t
      = (t ++ [mvwaddstr w (C_int row) (C_int col) "fmt world"], inl tt) /\
    Print driver Sprintf w [VString format] t
      = (t ++ [waddstr w (C_CString (Sprintf format []))], inl tt) /\
    Print driver Sprintf w [VString format; v] t
      = (t ++ [waddstr w (C_CString (Sprintf format [v]))], inl tt) /\
    Print_coords (VString format :: VInt n :: v' :: operands) t
      = (t, inl (mkLocals 1 0 n false true)) /\
    Print driver Sprintf w (VString format :: VInt n :: v' :: operands) t
      = (t, inr TypeAssertion) /\
    Print driver GoFmt.Sprintf w [VString "%d-%d"; VInt 1; VInt 2] t
      = (t, inr TypeAssertion) /\
    GoFmt.Sprintf "%d-%d" [VInt 1; VInt 2] = "1-2".
Proof.
  intros w row col n format v v' operands t.
  repeat split; go_run; reflexivity.
Qed.

(** C4, as the code has it.  Elements in excess are not refused.
    [AddChar] given three elements or more takes the first two as y and
    x and the third as the character, ignores every later element and
    forwards the move-then-add call.  [Print] given three leading
    integers or more takes the first two as y and x and panics on the
    third, which is no string, before any call to ncurses. *)
Theorem surplus_elements_are_not_refused :
  forall (w : Window) (a b c : Z) (more : list Z) (vmore : list Value)
         (t : trace),
    AddChar chtype_bits driver w (a :: b :: c :: more) t
      = (t ++ [mvwaddch w (C_int a) (C_int b)
                 (C_chtype chtype_bits (C_int c))], inl tt) /\
    Print driver Sprintf w (VInt a :: VInt b :: VInt c :: vmore) t
      = (t, inr TypeAssertion).
Proof.
  intros w a b c more vmore t; split; go_run; reflexivity.
Qed.

(** C5, as the code has it.  [Print] has no condition for invalid
    arguments.  On every list without a string after at most two leading
    ints, the empty list included, it stops in a Go run-time panic raised
    before any call to ncurses: an index out of range on the empty list,
    otherwise a failed type assertion or, where the scan asks the type of
    a nil, a nil dereference.  Whenever [Print] panics, on any list, it
    has forwarded nothing. *)
Theorem Print_without_format_panics :
  (forall (w : Window) (args : list Value) (t : trace),
      format_in_place args = false ->
      exists p : panic,
        Print driver Sprintf w args t = (t, inr p) /\
        (args = [] -> p = IndexOutOfRange) /\
        (args <> [] -> p = TypeAssertion \/ p = NilDereference)) /\
  (forall (w : Window) (args : list Value) (t t' : trace) (p : panic),
      Print driver Sprintf w args t = (t', inr p) -> t' = t).
Proof.
  split.
  - intros w args t.
    destruct args as [|a0 [|a1 [|a2 s]]];
      try destruct a0; try destruct a1; try destruct a2;
      cbn [format_in_place]; intros Hmissing; try discriminate Hmissing;
      eexists; (split; [go_run; reflexivity|]);
      (split;
       [ intros Hnil; first [ reflexivity | discriminate Hnil ]
       | intros Hne;
         first [ left; reflexivity
               | right; reflexivity
               | exfalso; apply Hne; reflexivity ] ]).
  - intros w args t t' p Hpanic.
    assert (Hpure : pure (Print_resolve Sprintf args))
      by (unfold Print_resolve, Print_coords; pure_steps).
    destruct Hpure as [r Hr].
    unfold Print, bind in Hpanic; rewrite Hr in Hpanic.
    destruct r as [[l cstr]|q].
    + exfalso; destruct (count l >? 0); cbv [bind call ret] in Hpanic;
        discriminate.
    + inversion Hpanic; reflexivity.
Qed.

(** C6, as the code has it.  [GetChar] tests [len(coords)] against the
    thresholds of [AddChar], whose list ends with a payload: with no
    element or one element it reads at the cursor, with two it moves to
    (y, 0), and only with three or more does it move to (y, x). *)
Theorem GetChar_thresholds :
  forall (w : Window) (row col extra : Z) (more : list Z) (t : trace),
    GetChar driver w [] t = (t ++ [wgetch w], inl (driver t (wgetch w))) /\
    GetChar driver w [row] t
      = (t ++ [wgetch w], inl (driver t (wgetch w))) /\
    GetChar driver w [row; col] t
      = (t ++ [mvwgetch w (C_int row) (C_int 0)],
         inl (driver t (mvwgetch w (C_int row) (C_int 0)))) /\
    GetChar driver w (row :: col :: extra :: more) t
      = (t ++ [mvwgetch w (C_int row) (C_int col)],
         inl (driver t (mvwgetch w (C_int row) (C_int col)))).
Proof.
  intros w row col extra more t.
  repeat split; go_run; reflexivity.
Qed.

(** C7.  [Print] looks at the length of the list and at the dynamic
    type of its first elements: y is taken only from a first element of
    type int in a list of two or more, x only from a second element of
    type int in a list of three or more.  [Print("hello %s!", "world")]
    takes no coordinate although it has two elements, and
    [Print(y, "fmt %s", v)] takes y alone although it has three; a lone
    int is no coordinate. *)
Theorem Print_coordinates_by_count_and_type :
  (forall (args : list Value) (l : Locals) (t : trace),
      Print_coords args t = (t, inl l) ->
      (hasY l = true ->
       len args > 1 /\ nth_error args 0 = Some (VInt (y l))) /\
      (hasX l = true ->
       len args > 2 /\ nth_error args 1 = Some (VInt (x l)))) /\
  (forall (format : string) (v : Value) (t : trace),
      Print_coords [VString format; v] t
        = (t, inl (mkLocals 0 0 0 false false))) /\
  (forall (row : Z) (format : string) (v : Value) (t : trace),
      Print_coords [VInt row; VString format; v] t
        = (t, inl (mkLocals 1 row 0 true false))) /\
  (forall (n : Z) (t : trace),
      Print_coords [VInt n] t = (t, inl (mkLocals 0 0 0 false false))) /\
  (forall (w : Window) (t : trace),
      Print driver GoFmt.Sprintf w
            [VString "hello %s!"; VString "world"] t
        = (t ++ [waddstr w "hello world!"], inl tt)).
Proof.
  split; [|repeat split; go_run; reflexivity].
  intros args l t Hscan.
  destruct (Print_coords_inv _ _ _ _ Hscan) as (_ & _ & _ & Hy & Hx).
  split; intros Htaken.
  - rewrite Htaken in Hy; exact Hy.
  - rewrite Htaken in Hx; exact Hx.
Qed.

(** Only the nil [Type] makes the scan of [Print] panic. *)
Lemma Print_coords_panic (args : list Value) (t t' : trace) (p : panic) :
  Print_coords args t = (t', inr p) -> p = NilDereference.
Proof.
  destruct args as [|a0 [|a1 [|a2 s]]]; try destruct a0; try destruct a1;
    intros H; scan_in H; inversion H; reflexivity.
Qed.

(** C8, as the code has it.  On every non-empty list of [AddChar], and on
    every list [Print] returns on, the scan has taken an x only together
    with a y and [rest], the elements from [args[count]] on, starts with
    the payload of the call: the character [AddChar] adds, the format
    [Print] renders with the elements after it.  [GetChar] has no payload:
    its scan takes an x only together with a y, and its call is made of
    the coordinates alone. *)
Theorem resolved_call_invariant :
  (forall (w : Window) (args : list Z) (t : trace),
      args <> [] ->
      exists (l : Locals) (ch : Z) (more : list Z),
        AddChar_coords args t = (t, inl l) /\
        (hasX l = true -> hasY l = true) /\
        rest args l = ch :: more /\
        AddChar chtype_bits driver w args t
          = (t ++ [if count l >? 0
                   then mvwaddch w (C_int (y l)) (C_int (x l))
                                 (C_chtype chtype_bits (C_int ch))
                   else waddch w (C_chtype chtype_bits (C_int ch))],
             inl tt)) /\
  (forall (w : Window) (args : list Value) (t t' : trace),
      Print driver Sprintf w args t = (t', inl tt) ->
      args <> [] /\
      exists (l : Locals) (format : string) (operands : list Value),
        Print_coords args t = (t, inl l) /\
        (hasX l = true -> hasY l = true) /\
        rest args l = VString format :: operands /\
        t' = t ++ [if count l >? 0
                   then mvwaddstr w (C_int (y l)) (C_int (x l))
                                  (C_CString (Sprintf format operands))
                   else waddstr w (C_CString (Sprintf format operands))]) /\
  (forall (w : Window) (coords : list Z) (t : trace),
      exists l : Locals,
        GetChar_coords coords t = (t, inl l) /\
        (hasX l = true -> hasY l = true) /\
        GetChar driver w coords t
          = (t ++ [if count l >? 0
                   then mvwgetch w (C_int (y l)) (C_int (x l))
                   else wgetch w],
             inl (driver t (if count l >? 0
                            then mvwgetch w (C_int (y l)) (C_int (x l))
                            else wgetch w)))).
Proof.
  split; [|split].
  - intros w [|a [|b [|c s]]] t Hne; [congruence|..];
      do 3 eexists; (split; [apply AddChar_coords_shape|]);
      (split; [reflexivity || discriminate|]);
      (split; [reflexivity|]); go_run; reflexivity.
  - intros w args t t' Hret.
    unfold Print, Print_resolve, bind in Hret.
    destruct (Print_coords args t) as [t1 [l|p]] eqn:Hscan;
      [|discriminate].
    destruct (Print_coords_inv _ _ _ _ Hscan) as (-> & Hcount & _ & _ & Hx).
    destruct (index args (count l) t) as [t2 [a|p]] eqn:Hidx;
      [|discriminate].
    destruct (index_inv _ _ _ _ _ Hidx) as (-> & Hnn & Hnth).
    destruct a as [|n|format|b|n]; try discriminate.
    cbn [assert_string ret] in Hret.
    assert (Hlt : count l + 1 <= len args).
    { assert (Hn : (Z.to_nat (count l) < List.length args)%nat)
        by (apply nth_error_Some; rewrite Hnth; discriminate).
      unfold len; lia. }
    rewrite slice_from_ok in Hret by lia.
    replace (Z.to_nat (count l + 1)) with (S (Z.to_nat (count l)))
      in Hret by lia.
    split.
    + intros ->; destruct (Z.to_nat (count l)); discriminate.
    + exists l, format, (skipn (S (Z.to_nat (count l))) args).
      split; [reflexivity|split; [|split]].
      * intros HX; rewrite HX in Hx, Hcount.
        destruct (hasY l); [reflexivity|exfalso].
        cbn in Hcount; rewrite Hcount in Hnth.
        destruct Hx as [_ Hx]; change (Z.to_nat 1) with 1%nat in Hnth.
        congruence.
      * unfold rest; apply skipn_at; exact Hnth.
      * cbv [bind call ret] in Hret.
        destruct (count l >? 0); inversion Hret; reflexivity.
  - intros w coords t; eexists.
    split; [apply GetChar_coords_shape|].
    split.
    + destruct coords as [|a [|b [|c s]]]; (reflexivity || discriminate).
    + unfold GetChar, bind; rewrite GetChar_coords_shape.
      match goal with
      | |- context [count ?l >? 0] => destruct (count l >? 0)
      end; reflexivity.
Qed.

(** C10.  On a non-empty list the index of the payload stays within the
    list: [count] is 0, 1 or 2 and at most [len(args) - 1], so
    [args[count]] exists and [args[count+1:]] is a valid slice, and
    [Print] never panics for an index out of range. *)
Theorem payload_index_in_bounds :
  (forall (args : list Z) (t : trace),
      args <> [] ->
      exists l : Locals,
        AddChar_coords args t = (t, inl l) /\
        0 <= count l <= 2 /\ count l <= len args - 1 /\
        exists a : Z, index args (count l) t = (t, inl a)) /\
  (forall (args : list Value) (l : Locals) (t : trace),
      args <> [] ->
      Print_coords args t = (t, inl l) ->
      0 <= count l <= 2 /\ count l <= len args - 1 /\
      (exists a : Value, index args (count l) t = (t, inl a)) /\
      (exists s : list Value,
          slice_from args (count l + 1) t = (t, inl s))) /\
  (forall (w : Window) (args : list Value) (t : trace),
      args <> [] ->
      snd (Print driver Sprintf w args t) <> inr IndexOutOfRange).
Proof.
  assert (Hprint : forall (args : list Value) (l : Locals) (t : trace),
             args <> [] -> Print_coords args t = (t, inl l) ->
             0 <= count l <= 2 /\ count l <= len args - 1).
  { intros args l t Hne Hscan.
    destruct (Print_coords_inv _ _ _ _ Hscan) as (_ & Hcount & Hle & _).
    specialize (Hle Hne).
    destruct (hasY l), (hasX l); cbn in Hcount; lia. }
  split; [|split].
  - intros [|a [|b [|c s]]] t Hne; [congruence|..];
      eexists; (split; [apply AddChar_coords_shape|]);
      cbn [count take_x take_y zeroed];
      (split; [len_arith|split; [len_arith|eexists; reflexivity]]).
  - intros args l t Hne Hscan.
    destruct (Hprint args l t Hne Hscan) as [Hrange Hle].
    repeat split; try lia.
    + apply index_in_bounds; lia.
    + eexists; apply slice_from_ok; lia.
  - intros w args t Hne.
    unfold Print, Print_resolve, bind.
    destruct (Print_coords args t) as [t1 [l|p]] eqn:Hscan.
    + destruct (Print_coords_inv _ _ _ _ Hscan) as (-> & _).
      destruct (Hprint args l t Hne Hscan) as [Hrange Hle].
      destruct (index_in_bounds args (count l) t) as [a Ha]; [lia|].
      rewrite Ha; destruct a; try (cbn; discriminate).
      cbn [assert_string ret]; rewrite slice_from_ok by lia.
      cbv beta iota delta [ret call].
      destruct (count l >? 0); cbn; discriminate.
    + apply Print_coords_panic in Hscan; subst p; cbn; discriminate.
Qed.

End Properties.

(** ** The claims on concrete calls *)

(** Row 23 is in the range of a C [int]: [C.int] hands it to ncurses as
    it is (C1). *)
Lemma leading_elements_are_coordinates_witness :
  - 2 ^ 31 <= 23 < 2 ^ 31 /\ C_int 23 = 23.
Proof.
  assert (Hrow : - 2 ^ 31 <= 23 < 2 ^ 31)
    by (split; [vm_compute; discriminate | reflexivity]).
  split; [exact Hrow|].
  destruct (leading_elements_are_coordinates 32 always_OK GoFmt.Sprintf
              7 23 10 65 "hello!" [] [])
    as (_ & _ & _ & _ & _ & _ & _ & _ & _ & Hsame & _).
  exact (Hsame Hrow).
Defined.

(** C4 as stated fails on the code: [AddChar(1, 2, 3, 4, 65)], four
    elements before the character, does not fail; it calls
    [mvwaddch(w, 1, 2, 3)]. *)
Lemma AddChar_accepts_five_elements :
  AddChar 32 always_OK 7 [1; 2; 3; 4; 65] []
    = ([mvwaddch 7 1 2 3], inl tt) /\
  ~ fails_locally (AddChar 32 always_OK 7 [1; 2; 3; 4; 65]) [].
Proof.
  split; [reflexivity|].
  intros [p Hp]; vm_compute in Hp; discriminate.
Qed.

(** C5 as stated fails on the code: what reaches the caller of
    [Print(5, 7)], a list without a format, is the very outcome of the
    well-formed [Print("%d-%d", 1, 2)], a failed type assertion.  No
    condition on outcomes holds of the first and not of the second. *)
Lemma Print_panic_is_no_argument_signal :
  format_in_place [VInt 5; VInt 7] = false /\
  format_in_place [VString "%d-%d"; VInt 1; VInt 2] = true /\
  Print always_OK GoFmt.Sprintf 7 [VInt 5; VInt 7] []
    = ([], inr TypeAssertion) /\
  Print always_OK GoFmt.Sprintf 7 [VString "%d-%d"; VInt 1; VInt 2] []
    = ([], inr TypeAssertion) /\
  ~ (exists InvalidArguments : trace * (unit + panic) -> Prop,
        InvalidArguments
          (Print always_OK GoFmt.Sprintf 7 [VInt 5; VInt 7] []) /\
        ~ InvalidArguments
            (Print always_OK GoFmt.Sprintf 7
                   [VString "%d-%d"; VInt 1; VInt 2] [])).
Proof.
  split; [reflexivity|split; [reflexivity|]].
  split; [reflexivity|split; [reflexivity|]].
  intros [InvalidArguments [Hmissing Hformed]].
  apply Hformed; exact Hmissing.
Qed.

(** [Print(5, 7)] has no format in place and panics with an empty
    trace (C5). *)
Lemma Print_without_format_panics_witness :
  format_in_place [VInt 5; VInt 7] = false /\
  exists p : panic,
    Print always_OK GoFmt.Sprintf 7 [VInt 5; VInt 7] [] = ([], inr p) /\
    ([VInt 5; VInt 7] = [] -> p = IndexOutOfRange) /\
    ([VInt 5; VInt 7] <> [] -> p = TypeAssertion \/ p = NilDereference).
Proof.
  split; [reflexivity|].
  exact (proj1 (Print_without_format_panics always_OK GoFmt.Sprintf)
               7 [VInt 5; VInt 7] [] eq_refl).
Defined.

(** [Print(23, "hello!")] meets the premise of C7: its y comes from an
    int at the head of a list of two. *)
Lemma Print_coordinates_by_count_and_type_witness :
  Print_coords [VInt 23; VString "hello!"] []
    = ([], inl (mkLocals 1 23 0 true false)) /\
  len [VInt 23; VString "hello!"] > 1 /\
  nth_error [VInt 23; VString "hello!"] 0 = Some (VInt 23).
Proof.
  split; [reflexivity|].
  exact (proj1 (proj1 (Print_coordinates_by_count_and_type always_OK)
                      [VInt 23; VString "hello!"]
                      (mkLocals 1 23 0 true false) [] eq_refl)
               eq_refl).
Defined.

(** C8 as stated fails on the code.  [GetChar(5, 10)] is accepted and
    leaves [rest] equal to [10], but 10 is no operand: [GetChar(5, 11)]
    makes the same call and returns the same value.  And the scan of
    [Print("%d-%d", 1, 2)] returns with an x and no y. *)
Lemma rest_of_GetChar_is_no_operand :
  GetChar_coords [5; 10] [] = ([], inl (mkLocals 1 5 0 true false)) /\
  rest [5; 10] (mkLocals 1 5 0 true false) = [10] /\
  rest [5; 11] (mkLocals 1 5 0 true false) = [11] /\
  GetChar always_OK 7 [5; 10] [] = ([mvwgetch 7 5 0], inl 0) /\
  GetChar always_OK 7 [5; 11] [] = ([mvwgetch 7 5 0], inl 0) /\
  Print_coords [VString "%d-%d"; VInt 1; VInt 2] []
    = ([], inl (mkLocals 1 0 1 false true)) /\
  ~ (hasX (mkLocals 1 0 1 false true) = true ->
     hasY (mkLocals 1 0 1 false true) = true).
Proof.
  repeat (split; [reflexivity|]).
  intros Himp; specialize (Himp eq_refl); discriminate Himp.
Qed.

(** C8 on [AddChar(3, 4, 65)] and [Print(23, "hello!")]: the first list
    is non-empty and [Print] returns on the second. *)
Lemma resolved_call_invariant_witness :
  ([3; 4; 65] <> [] /\
   exists (l : Locals) (ch : Z) (more : list Z),
     AddChar_coords [3; 4; 65] [] = ([], inl l) /\
     (hasX l = true -> hasY l = true) /\
     rest [3; 4; 65] l = ch :: more /\
     AddChar 32 always_OK 7 [3; 4; 65] []
       = ([] ++ [if count l >? 0
                 then mvwaddch 7 (C_int (y l)) (C_int (x l))
                               (C_chtype 32 (C_int ch))
                 else waddch 7 (C_chtype 32 (C_int ch))],
          inl tt)) /\
  (Print always_OK GoFmt.Sprintf 7 [VInt 23; VString "hello!"] []
     = ([mvwaddstr 7 23 0 "hello!"], inl tt) /\
   [VInt 23; VString "hello!"] <> [] /\
   exists (l : Locals) (format : string) (operands : list Value),
     Print_coords [VInt 23; VString "hello!"] [] = ([], inl l) /\
     (hasX l = true -> hasY l = true) /\
     rest [VInt 23; VString "hello!"] l = VString format :: operands /\
     [mvwaddstr 7 23 0 "hello!"]
       = [] ++ [if count l >? 0
                then mvwaddstr 7 (C_int (y l)) (C_int (x l))
                               (C_CString (GoFmt.Sprintf format operands))
                else waddstr 7 (C_CString (GoFmt.Sprintf format operands))]).
Proof.
  destruct (resolved_call_invariant 32 always_OK GoFmt.Sprintf)
    as (HAddChar & HPrint & _).
  split.
  - split; [discriminate|].
    apply (HAddChar 7 [3; 4; 65] []); discriminate.
  - split; [reflexivity|].
    apply (HPrint 7 [VInt 23; VString "hello!"] []
                  [mvwaddstr 7 23 0 "hello!"]).
    reflexivity.
Defined.

(** C10 on [AddChar(3, 65)] and [Print(23, "hello!")], two non-empty
    lists; the scan of [Print] returns on the second. *)
Lemma payload_index_in_bounds_witness :
  ([3; 65] <> [] /\
   exists l : Locals,
     AddChar_coords [3; 65] [] = ([], inl l) /\
     0 <= count l <= 2 /\ count l <= len [3; 65] - 1 /\
     exists a : Z, index [3; 65] (count l) [] = ([], inl a)) /\
  ([VInt 23; VString "hello!"] <> [] /\
   Print_coords [VInt 23; VString "hello!"] []
     = ([], inl (mkLocals 1 23 0 true false)) /\
   0 <= 1 <= 2 /\ 1 <= len [VInt 23; VString "hello!"] - 1 /\
   (exists a : Value,
       index [VInt 23; VString "hello!"] 1 [] = ([], inl a)) /\
   (exists s : list Value,
       slice_from [VInt 23; VString "hello!"] (1 + 1) [] = ([], inl s))) /\
  snd (Print always_OK GoFmt.Sprintf 7 [VInt 23; VString "hello!"] [])
    <> inr IndexOutOfRange.
Proof.
  destruct (payload_index_in_bounds always_OK GoFmt.Sprintf)
    as (HAddChar & HPrint & Hsafe).
  split; [|split].
  - split; [discriminate|].
    apply (HAddChar [3; 65] []); discriminate.
  - split; [discriminate|split; [reflexivity|]].
    apply (HPrint [VInt 23; VString "hello!"]
                  (mkLocals 1 23 0 true false) []).
    + discriminate.
    + reflexivity.
  - apply (Hsafe 7 [VInt 23; VString "hello!"] []); discriminate.
Defined.

(** * Properties of the rest of the binding *)

Lemma C_short_small (v : Z) : - 2 ^ 15 <= v < 2 ^ 15 -> C_short v = v.
Proof.
  intros Hv; unfold C_short.
  rewrite Z.mod_small by lia; lia.
Qed.

Lemma Go_int_small (int_bits v : Z) :
  32 <= int_bits -> - 2 ^ 31 <= v < 2 ^ 31 -> Go_int int_bits v = v.
Proof.
  intros Hbits Hv; unfold Go_int.
  assert (Hpow : 2 ^ 31 <= 2 ^ (int_bits - 1))
    by (apply Z.pow_le_mono_r; lia).
  assert (Hdouble : 2 ^ int_bits = 2 * 2 ^ (int_bits - 1)).
  { replace int_bits with (1 + (int_bits - 1)) at 1 by lia.
    rewrite Z.pow_add_r by lia; reflexivity. }
  rewrite Z.mod_small by lia; lia.
Qed.

Lemma eqb_false_of_neq (a b : Z) : a <> b -> (a =? b) = false.
Proof. intros Hab; apply Z.eqb_neq; exact Hab. Qed.

Lemma gtb_true_of_gt (a b : Z) : a > b -> (a >? b) = true.
Proof. intros Hab; rewrite Z.gtb_ltb; apply Z.ltb_lt; lia. Qed.

Lemma gtb_false_of_le (a b : Z) : a <= b -> (a >? b) = false.
Proof. intros Hab; rewrite Z.gtb_ltb; apply Z.ltb_ge; lia. Qed.

Section LibraryProperties.

Variable lib : list LibCall -> LibCall -> Reply.
Variables ERR OK E_OK COLOR_PAIRS int_bits : Z.
Variable ncursesError : Z -> GoError.

(** X1.  [HalfDelay] calls the library only for a positive delay.  With a
    delay of zero or less it changes nothing and still reports success;
    with a positive delay it makes the one call [halfdelay] and fails
    exactly when that call returns [ERR]. *)
Theorem HalfDelay_only_for_positive_delay :
  forall (delay : Z) (t : list LibCall),
    ERR <> 0 ->
    (delay <= 0 -> HalfDelay lib ERR delay t = (t, inl None)) /\
    (delay > 0 ->
     HalfDelay lib ERR delay t =
     (t ++ [halfdelay (C_int delay)],
      inl (if r_code (lib t (halfdelay (C_int delay))) =? ERR
           then Some "Unable to set delay mode"
           else None))).
Proof.
  intros delay t HERR; split; intros Hdelay; unfold HalfDelay, lbind.
  - rewrite (gtb_false_of_le _ _ Hdelay).
    cbv beta iota delta [lret].
    rewrite eqb_false_of_neq by congruence; reflexivity.
  - rewrite (gtb_true_of_gt _ _ Hdelay).
    cbv beta iota delta [lret lcall lbind].
    destruct (r_code (lib t (halfdelay (C_int delay))) =? ERR); reflexivity.
Qed.

(** X2.  [InitPair] refuses pair 0 and every pair above [COLOR_PAIRS - 1]
    with its own error and without a call to the library; every other
    pair is handed to [init_pair] once, the colours cut to 16 bits, and
    the result is an error exactly when [init_pair] returns [ERR]. *)
Theorem InitPair_guards_the_pair :
  forall (pair fg bg : Z) (t : list LibCall),
    0 <= pair < 256 ->
    (pair = 0 \/ pair > C_int (COLOR_PAIRS - 1) ->
     InitPair lib ERR COLOR_PAIRS pair fg bg t
       = (t, inl (Some "Invalid color pair selected"))) /\
    (pair <> 0 -> pair <= C_int (COLOR_PAIRS - 1) ->
     InitPair lib ERR COLOR_PAIRS pair fg bg t
       = (t ++ [init_pair pair (C_short fg) (C_short bg)],
          inl (if r_code (lib t (init_pair pair (C_short fg) (C_short bg)))
                  =? ERR
               then Some "Failed to init color pair"
               else None))).
Proof.
  intros pair fg bg t Hbyte.
  assert (Hci : C_int pair = pair) by (apply C_int_small; lia).
  assert (Hcs : C_short pair = pair) by (apply C_short_small; lia).
  unfold InitPair; rewrite Hci, Hcs; split.
  - intros [Hzero|Habove].
    + subst pair; reflexivity.
    + rewrite (gtb_true_of_gt _ _ Habove), orb_true_r; reflexivity.
  - intros Hnz Hle.
    rewrite (eqb_false_of_neq _ _ Hnz), (gtb_false_of_le _ _ Hle).
    cbv beta iota delta [orb lret lcall lbind].
    destruct (r_code (lib t (init_pair pair (C_short fg) (C_short bg)))
              =? ERR); reflexivity.
Qed.

(** X3.  [StartColor] succeeds exactly when [has_colors] answers true and
    the following [start_color] does not return [ERR]; when [has_colors]
    answers false, [start_color] is not called. *)
Theorem StartColor_asks_before_it_starts :
  forall (t : list LibCall),
    (truth (lib t has_colors) = false ->
     StartColor lib ERR t
       = (t ++ [has_colors], inl (Some "Terminal does not support colors")))
    /\
    (forall t' : list LibCall,
        StartColor lib ERR t = (t', inl None) <->
        truth (lib t has_colors) = true /\
        r_code (lib (t ++ [has_colors]) start_color) <> ERR /\
        t' = (t ++ [has_colors]) ++ [start_color]).
Proof.
  intros t; unfold StartColor, lbind, lcall, lret.
  destruct (truth (lib t has_colors)); cbn [Bool.eqb].
  - split; [discriminate|]; intros t'.
    destruct (Z.eqb_spec (r_code (lib (t ++ [has_colors]) start_color)) ERR)
      as [Herr|Hok].
    + split; [discriminate|]; intros (_ & Hne & _); contradiction.
    + split.
      * intros H; inversion H; auto.
      * intros (_ & _ & ->); reflexivity.
  - split; [reflexivity|]; intros t'; split.
    + discriminate.
    + intros (Hfalse & _); discriminate.
Qed.

(** X4.  [GetMouse] never faults.  It returns either an error with no
    event, or no error with the five numbers x, y, z, id and button state
    in that order, after the calls [has_mouse] and [getmouse]; when
    [has_mouse] answers false, [getmouse] is not called. *)
Theorem GetMouse_event_or_error :
  forall (t : list LibCall),
    (truth (lib t has_mouse) = false ->
     GetMouse lib OK int_bits t
       = (t ++ [has_mouse], inl ([], Some "Mouse support not enabled"))) /\
    exists (t' : list LibCall) (event : list Z) (err : GoError),
      GetMouse lib OK int_bits t = (t', inl (event, err)) /\
      ((err <> None /\ event = []) \/
       (err = None /\
        t' = (t ++ [has_mouse]) ++ [getmouse] /\
        let e := r_event (lib (t ++ [has_mouse]) getmouse) in
        event = [Go_int int_bits (ev_x e); Go_int int_bits (ev_y e);
                 Go_int int_bits (ev_z e); Go_int int_bits (ev_id e);
                 Go_int int_bits (ev_bstate e)])).
Proof.
  intros t; unfold GetMouse, lbind, lcall, lret.
  destruct (truth (lib t has_mouse)); cbn [Bool.eqb negb].
  - split; [discriminate|].
    destruct (r_code (lib (t ++ [has_mouse]) getmouse) =? OK);
      cbn [negb]; do 3 eexists; (split; [reflexivity|]).
    + right; repeat split; reflexivity.
    + left; split; [discriminate|reflexivity].
  - split; [reflexivity|].
    do 3 eexists; split; [reflexivity|].
    left; split; [discriminate|reflexivity].
Qed.

(** X5.  [Sync] makes one call for [SYNC_DOWN], [SYNC_CURSOR] and
    [SYNC_UP], namely [wsyncdown], [wcursyncup] and [wsyncup], and no call
    for any other value, [SYNC_NONE] included. *)
Theorem Sync_dispatch :
  forall (w : Window) (sync : Z) (t : list LibCall),
    Sync lib w SYNC_DOWN t = (t ++ [wsyncdown w], inl tt) /\
    Sync lib w SYNC_CURSOR t = (t ++ [wcursyncup w], inl tt) /\
    Sync lib w SYNC_UP t = (t ++ [wsyncup w], inl tt) /\
    Sync lib w SYNC_NONE t = (t, inl tt) /\
    (sync < 1 \/ sync > 3 -> Sync lib w sync t = (t, inl tt)).
Proof.
  intros w sync t; repeat split; try reflexivity.
  intros Hout; unfold Sync, SYNC_DOWN, SYNC_CURSOR, SYNC_UP.
  rewrite !eqb_false_of_neq by lia; reflexivity.
Qed.

(** X6.  [GetString(0)] panics on the first cell of its empty buffer and a
    negative [n] panics in [make], both before any call to the library;
    for a positive [n] the one call is [wgetnstr] on a buffer of [n]
    bytes, and an [ERR] from it gives the empty string with an error. *)
Theorem GetString_needs_positive_length :
  forall (w : Window) (n : Z) (t : list LibCall),
    GetString lib ERR w 0 t = (t, inr (GoPanic IndexOutOfRange)) /\
    (n < 0 -> GetString lib ERR w n t = (t, inr MakeLenOutOfRange)) /\
    (n > 0 ->
     GetString lib ERR w n t =
     (t ++ [wgetnstr w n (C_int n)],
      inl (if r_code (lib t (wgetnstr w n (C_int n))) =? ERR
           then ("", Some "Failed to retrieve string from input stream")
           else (GoString (r_text (lib t (wgetnstr w n (C_int n)))),
                 None)))).
Proof.
  intros w n t; split; [reflexivity|split].
  - intros Hneg; unfold GetString, lbind, make.
    replace (n <? 0) with true by (symmetry; apply Z.ltb_lt; lia).
    reflexivity.
  - intros Hpos; unfold GetString, lbind, make.
    replace (n <? 0) with false by (symmetry; apply Z.ltb_ge; lia).
    cbv beta iota delta [lret].
    assert (Hlen : len (repeat 0 (Z.to_nat n)) = n)
      by (unfold len; rewrite repeat_length; lia).
    assert (Hcell : cell (repeat 0 (Z.to_nat n)) 0 t = (t, inl 0))
      by (destruct (Z.to_nat n) as [|k] eqn:Hk; [lia|reflexivity]).
    rewrite Hcell, Hlen.
    cbv beta iota delta [lret lcall].
    destruct (r_code (lib t (wgetnstr w n (C_int n))) =? ERR); reflexivity.
Qed.

(** X7.  [Spacing] returns (0, 0, 0) whenever [menu_spacing] reports
    [E_OK], whatever the library stored; the stored description, row and
    column spacing are returned only when the call reports a failure. *)
Theorem Spacing_discards_the_answer :
  forall (m : Menu) (t : list LibCall),
    let r := lib t (menu_spacing m) in
    (r_code r = E_OK ->
     Spacing lib E_OK int_bits m t = (t ++ [menu_spacing m], inl (0, 0, 0)))
    /\
    (r_code r <> E_OK ->
     Spacing lib E_OK int_bits m t =
     (t ++ [menu_spacing m],
      inl (Go_int int_bits (fst (fst (r_ints r))),
           Go_int int_bits (snd (fst (r_ints r))),
           Go_int int_bits (snd (r_ints r))))).
Proof.
  intros m t r; subst r; unfold Spacing, lbind, lcall, lret.
  destruct (r_ints (lib t (menu_spacing m))) as [[desc row] col].
  split; intros Hcode.
  - rewrite Hcode, Z.eqb_refl; reflexivity.
  - rewrite (eqb_false_of_neq _ _ Hcode); reflexivity.
Qed.

End LibraryProperties.

(** ** The three window methods, beyond the claims *)

Lemma payload_unchanged (chtype_bits ch : Z) :
  31 <= chtype_bits -> 0 <= ch < 2 ^ 31 ->
  C_chtype chtype_bits (C_int ch) = ch.
Proof.
  intros Hbits Hch.
  rewrite C_int_small by lia.
  unfold C_chtype; apply Z.mod_small.
  assert (2 ^ 31 <= 2 ^ chtype_bits) by (apply Z.pow_le_mono_r; lia).
  lia.
Qed.

Section WindowProperties.

Variable chtype_bits : Z.
Variable driver : trace -> DriverCall -> Z.
Variable Sprintf : string -> list Value -> string.

(** X8.  With a [chtype] of 31 bits or more, [AddChar] hands every
    character from 0 up to 2^31 - 1, attributes and colours OR'd in, to
    ncurses unchanged, with or without coordinates. *)
Theorem AddChar_passes_the_character :
  forall (w : Window) (row col ch : Z) (t : trace),
    31 <= chtype_bits -> 0 <= ch < 2 ^ 31 ->
    AddChar chtype_bits driver w [ch] t = (t ++ [waddch w ch], inl tt) /\
    AddChar chtype_bits driver w [row; ch] t
      = (t ++ [mvwaddch w (C_int row) (C_int 0) ch], inl tt) /\
    AddChar chtype_bits driver w [row; col; ch] t
      = (t ++ [mvwaddch w (C_int row) (C_int col) ch], inl tt).
Proof.
  intros w row col ch t Hbits Hch.
  repeat split; go_run; rewrite (payload_unchanged _ _ Hbits Hch);
    reflexivity.
Qed.

(** X9.  The 32 [ACS_] constants are pairwise distinct and each lies
    between 0 and 2^31 - 1, the range [AddChar] passes unchanged. *)
Theorem ACS_constants_distinct :
  NoDup ACS /\ Forall (fun c : Z => 0 <= c < 2 ^ 31) ACS /\
  List.length ACS = 32%nat.
Proof.
  split; [|split].
  - unfold ACS.
    repeat (apply NoDup_cons;
            [cbv; intuition discriminate|]).
    apply NoDup_nil.
  - unfold ACS; repeat (apply Forall_cons; [split; [discriminate|reflexivity]|]).
    apply Forall_nil.
  - reflexivity.
Qed.

(** X10.  [Print] returns exactly on the lists of [Print_accepts]; on
    every other list it panics. *)
Theorem Print_returns_iff_accepted :
  forall (w : Window) (args : list Value) (t : trace),
    (exists t' : trace, Print driver Sprintf w args t = (t', inl tt)) <->
    Print_accepts args = true.
Proof.
  intros w args t.
  destruct args as [|a0 [|a1 [|a2 s]]];
    try destruct a0; try destruct a1; try destruct a2;
    cbn [Print_accepts];
    (split;
     [ intros [t' H];
       first [ reflexivity
             | exfalso; revert H; go_run; discriminate ]
     | intros H;
       first [ discriminate H
             | eexists; go_run; reflexivity ] ]).
Qed.

(** X11.  [Print] panics on a nil pointer exactly when the scan asks the
    type of a nil: a nil first element of a list of two or more, or a nil
    second element of a list of three or more, even where that element is
    an operand of the format. *)
Theorem Print_nil_panics_iff_inspected :
  forall (w : Window) (args : list Value) (t : trace),
    (exists t' : trace,
        Print driver Sprintf w args t = (t', inr NilDereference)) <->
    nil_inspected args = true.
Proof.
  intros w args t.
  destruct args as [|a0 [|a1 [|a2 s]]];
    try destruct a0; try destruct a1; try destruct a2;
    cbn [nil_inspected];
    (split;
     [ intros [t' H];
       first [ reflexivity
             | exfalso; revert H; go_run; discriminate ]
     | intros H;
       first [ discriminate H
             | eexists; go_run; reflexivity ] ]).
Qed.

(** X12.  Each of the three methods makes one call to ncurses when it
    returns and none when it panics; [GetChar] never panics and returns
    what ncurses answered. *)
Theorem one_call_or_none :
  (forall (w : Window) (args : list Z) (t t' : trace) (r : unit + panic),
      AddChar chtype_bits driver w args t = (t', r) ->
      (exists p : panic, r = inr p /\ t' = t) \/
      (r = inl tt /\ exists c : DriverCall, t' = t ++ [c])) /\
  (forall (w : Window) (coords : list Z) (t : trace),
      exists c : DriverCall,
        GetChar driver w coords t = (t ++ [c], inl (driver t c))) /\
  (forall (w : Window) (args : list Value) (t t' : trace)
          (r : unit + panic),
      Print driver Sprintf w args t = (t', r) ->
      (exists p : panic, r = inr p /\ t' = t) \/
      (r = inl tt /\ exists c : DriverCall, t' = t ++ [c])).
Proof.
  split; [|split].
  - intros w args t t' r Hrun.
    assert (Hpure : pure (AddChar_resolve args))
      by (unfold AddChar_resolve, AddChar_coords; pure_steps).
    destruct Hpure as [q Hq].
    unfold AddChar, bind in Hrun; rewrite Hq in Hrun.
    destruct q as [[l cattr]|p].
    + right; destruct (count l >? 0); cbv [bind call ret] in Hrun;
        inversion Hrun; (split; [reflexivity|eexists; reflexivity]).
    + left; inversion Hrun; exists p; split; reflexivity.
  - intros w coords t; unfold GetChar, bind.
    rewrite GetChar_coords_shape.
    match goal with
    | |- context [count ?l >? 0] => destruct (count l >? 0)
    end; eexists; reflexivity.
  - intros w args t t' r Hrun.
    assert (Hpure : pure (Print_resolve Sprintf args))
      by (unfold Print_resolve, Print_coords; pure_steps).
    destruct Hpure as [q Hq].
    unfold Print, bind in Hrun; rewrite Hq in Hrun.
    destruct q as [[l cstr]|p].
    + right; destruct (count l >? 0); cbv [bind call ret] in Hrun;
        inversion Hrun; (split; [reflexivity|eexists; reflexivity]).
    + left; inversion Hrun; exists p; split; reflexivity.
Qed.

End WindowProperties.

(** ** The arrays of the menu extension *)

Lemma len_app {A : Type} (s1 s2 : list A) : len (s1 ++ s2) = len s1 + len s2.
Proof. unfold len; rewrite length_app; lia. Qed.

Lemma to_nat_len {A : Type} (s : list A) : Z.to_nat (len s) = List.length s.
Proof. unfold len; apply Nat2Z.id. Qed.

(** Writing the cell that follows [pre]. *)
Lemma assign_after (pre suf : list Z) (a v : Z) (t : list LibCall) :
  assign (pre ++ a :: suf) (len pre) v t = (t, inl (pre ++ v :: suf)).
Proof.
  unfold assign.
  replace (len pre <? 0) with false
    by (symmetry; apply Z.ltb_ge; unfold len; lia).
  replace (len pre >=? len (pre ++ a :: suf)) with false.
  - cbn [orb]; unfold lret; rewrite to_nat_len.
    rewrite firstn_app, firstn_all, Nat.sub_diag; cbn [firstn].
    rewrite app_nil_r.
    change (S (List.length pre)) with (1 + List.length pre)%nat.
    rewrite <- skipn_skipn, skipn_app, skipn_all, Nat.sub_diag.
    reflexivity.
  - symmetry; rewrite Z.geb_leb; apply Z.leb_gt.
    rewrite len_app; unfold len; cbn [List.length]; lia.
Qed.

(** The loop of [NewMenu] and [SetItems] overwrites the cells after [pre]
    with the items, in order. *)
Lemma copy_items_spec (items pre suf : list Z) (t : list LibCall) :
  (List.length items <= List.length suf)%nat ->
  copy_items (pre ++ suf) (len pre) items t
    = (t, inl (pre ++ items ++ skipn (List.length items) suf)).
Proof.
  revert pre suf; induction items as [|item items IH]; intros pre suf Hlen.
  - reflexivity.
  - destruct suf as [|a suf]; [cbn in Hlen; lia|].
    cbn [copy_items]; unfold lbind; rewrite assign_after.
    replace (pre ++ item :: suf) with ((pre ++ [item]) ++ suf)
      by (rewrite <- app_assoc; reflexivity).
    replace (len pre + 1) with (len (pre ++ [item]))
      by (rewrite len_app; reflexivity).
    rewrite IH by (cbn in Hlen; lia).
    rewrite <- app_assoc; reflexivity.
Qed.

Lemma skipn_repeat_last (n : nat) : skipn n (repeat 0 (S n)) = [0].
Proof. induction n as [|n IH]; [reflexivity|exact IH]. Qed.

(** The array [NewMenu] and [SetItems] build before they call C. *)
Lemma terminated_array {B : Type} (items : list Z)
      (k : list Z -> Lib B) (t : list LibCall) :
  (citems <~ make (len items + 1) ;;
   citems <~ copy_items citems 0 items ;;
   citems <~ assign citems (len items) 0 ;;
   _ <~ cell citems 0 ;;
   k citems) t
  = k (items ++ [0]) t.
Proof.
  unfold lbind at 1; unfold make.
  replace (len items + 1 <? 0) with false
    by (symmetry; apply Z.ltb_ge; unfold len; lia).
  unfold lret at 1.
  replace (Z.to_nat (len items + 1)) with (S (List.length items))
    by (unfold len; lia).
  unfold lbind at 1.
  pose proof (copy_items_spec items [] (repeat 0 (S (List.length items))) t)
    as Hcopy.
  cbn [app] in Hcopy; change (len (@nil Z)) with 0 in Hcopy.
  rewrite Hcopy by (rewrite repeat_length; lia).
  rewrite skipn_repeat_last.
  unfold lbind at 1; rewrite assign_after.
  unfold lbind at 1.
  replace (cell (items ++ [0]) 0 t) with (t, @inl Z fault (hd 0 (items ++ [0])))
    by (destruct items; reflexivity).
  reflexivity.
Qed.

(** The loop of [Items] fills the cells after [done] with the cells of
    the C array at the same positions. *)
Lemma Items_loop_spec (passes : nat) :
  forall (citems done todo : list Z) (t : list LibCall),
    List.length todo = passes ->
    (List.length done + passes <= List.length citems)%nat ->
    len done + Z.of_nat passes < 2 ^ 31 ->
    Items_loop citems (done ++ todo) (len done + Z.of_nat passes)
               (len done) passes t
    = (t, inl (done ++ firstn passes (skipn (List.length done) citems))).
Proof.
  induction passes as [|passes IH]; intros citems done todo t Htodo Hfit Hint.
  - destruct todo; [|discriminate]; reflexivity.
  - destruct todo as [|a todo]; [discriminate|].
    cbn [Items_loop].
    replace (len done <? len done + Z.of_nat (S passes)) with true
      by (symmetry; apply Z.ltb_lt; lia).
    assert (Hdone : 0 <= len done) by (unfold len; lia).
    rewrite C_int_small by lia.
    destruct (nth_error citems (List.length done)) as [item|] eqn:Hitem;
      [|apply nth_error_None in Hitem; lia].
    unfold lbind at 1; unfold menu_item_at.
    replace (len done <? 0) with false by (symmetry; apply Z.ltb_ge; lia).
    unfold MenuItem; rewrite to_nat_len, Hitem; unfold lret at 1.
    unfold lbind at 1; rewrite assign_after.
    replace (done ++ item :: todo) with ((done ++ [item]) ++ todo)
      by (rewrite <- app_assoc; reflexivity).
    replace (len done + 1) with (len (done ++ [item]))
      by (rewrite len_app; reflexivity).
    replace (len done + Z.of_nat (S passes))
      with (len (done ++ [item]) + Z.of_nat passes)
      by (rewrite len_app; unfold len; cbn [List.length]; lia).
    rewrite IH.
    + rewrite length_app; cbn [List.length].
      rewrite (skipn_at _ _ _ Hitem), Nat.add_1_r, <- app_assoc.
      reflexivity.
    + injection Htodo as Htodo; exact Htodo.
    + rewrite length_app; cbn [List.length]; lia.
    + rewrite len_app; unfold len in *; cbn [List.length]; lia.
Qed.

Section MenuProperties.

Variable lib : list LibCall -> LibCall -> Reply.
Variables int_bits uintptr_bits : Z.
Variable ncursesError : Z -> GoError.
Variable in_go_heap : Z -> bool.

(** X13.  [NewMenu] and [SetItems] build an array holding the items in
    their order followed by one nil, for every list of items, the empty
    list included.  When no item points into Go memory they hand that
    array to C in a single call; when some item does, cgo's check of the
    argument panics and C is not called. *)
Theorem menu_arrays_are_nil_terminated :
  forall (m : Menu) (items : list MenuItem) (t : list LibCall),
    (existsb (is_go_pointer in_go_heap) items = false ->
     NewMenu lib ncursesError in_go_heap items t
       = (t ++ [new_menu (items ++ [0])],
          inl (r_code (lib t (new_menu (items ++ [0]))),
               ncursesError (r_errno (lib t (new_menu (items ++ [0]))))))
     /\
     SetItems lib ncursesError uintptr_bits in_go_heap m items t
       = (t ++ [set_menu_items m (items ++ [0])],
          inl (ncursesError
                 (Errno uintptr_bits
                    (r_code (lib t (set_menu_items m (items ++ [0])))))))) /\
    (existsb (is_go_pointer in_go_heap) items = true ->
     NewMenu lib ncursesError in_go_heap items t
       = (t, inr CgoPointerCheck) /\
     SetItems lib ncursesError uintptr_bits in_go_heap m items t
       = (t, inr CgoPointerCheck)).
Proof.
  intros m items t; unfold MenuItem in *.
  assert (Hcells : existsb (is_go_pointer in_go_heap) (items ++ [0])
                   = existsb (is_go_pointer in_go_heap) items).
  { rewrite existsb_app; cbn [existsb]; unfold is_go_pointer at 2.
    rewrite Z.eqb_refl; cbn [negb andb orb].
    apply orb_false_r. }
  split; intros Hitems.
  - split.
    + unfold NewMenu; rewrite terminated_array.
      unfold lbind at 1; unfold cgoCheckPointer.
      rewrite Hcells, Hitems; reflexivity.
    + unfold SetItems; rewrite terminated_array.
      unfold lbind at 1; unfold cgoCheckPointer.
      rewrite Hcells, Hitems; reflexivity.
  - split.
    + unfold NewMenu; rewrite terminated_array.
      unfold lbind at 1; unfold cgoCheckPointer.
      rewrite Hcells, Hitems; reflexivity.
    + unfold SetItems; rewrite terminated_array.
      unfold lbind at 1; unfold cgoCheckPointer.
      rewrite Hcells, Hitems; reflexivity.
Qed.

(** X14.  [Items] asks C for the array of the menu and then for the
    number of items.  When that number is between 0 and the length of the
    array it returns that many cells from the start of the array, in
    order; when the number is negative, as [item_count] answers on an
    error, [Items] panics in [make]. *)
Theorem Items_reads_count_cells :
  forall (m : Menu) (t : list LibCall),
    let citems := r_array (lib t (menu_items m)) in
    let count :=
      Go_int int_bits (r_code (lib (t ++ [menu_items m]) (item_count m))) in
    (count < 0 ->
     Items lib int_bits m t
       = ((t ++ [menu_items m]) ++ [item_count m],
          inr MakeLenOutOfRange)) /\
    (0 <= count <= len citems -> count < 2 ^ 31 ->
     Items lib int_bits m t
       = ((t ++ [menu_items m]) ++ [item_count m],
          inl (firstn (Z.to_nat count) citems))).
Proof.
  intros m t citems count; split.
  - intros Hneg.
    unfold Items, Count, lbind, lcall, lret, make.
    fold count.
    replace (count <? 0) with true by (symmetry; apply Z.ltb_lt; lia).
    reflexivity.
  - intros [Hlo Hhi] Hint.
    unfold Items, Count, lbind at 1 2 3, lcall, lret, make.
    fold count; fold citems.
    replace (count <? 0) with false by (symmetry; apply Z.ltb_ge; lia).
    cbv beta iota.
    pose proof (Items_loop_spec (Z.to_nat count) citems []
                  (repeat 0 (Z.to_nat count))
                  ((t ++ [menu_items m]) ++ [item_count m])) as Hloop.
    cbn [app List.length skipn Nat.add] in Hloop.
    change (len (@nil Z)) with 0 in Hloop.
    rewrite Z2Nat.id, Z.add_0_l in Hloop by exact Hlo.
    apply Hloop.
    + apply repeat_length.
    + unfold len, MenuItem in *; lia.
    + exact Hint.
Qed.

End MenuProperties.

(** ** The further properties on concrete calls *)

(** [HalfDelay(0)] and [HalfDelay(5)], with [ERR] at -1. *)
Lemma HalfDelay_only_for_positive_delay_witness :
  -1 <> 0 /\ 0 <= 0 /\ 5 > 0 /\
  HalfDelay quiet_lib (-1) 0 [] = ([], inl None) /\
  HalfDelay quiet_lib (-1) 5 [] = ([halfdelay 5], inl None).
Proof.
  assert (HERR : -1 <> 0) by discriminate.
  assert (Hzero : 0 <= 0) by discriminate.
  assert (Hfive : 5 > 0) by reflexivity.
  split; [exact HERR|split; [exact Hzero|split; [exact Hfive|split]]].
  - exact (proj1 (HalfDelay_only_for_positive_delay quiet_lib (-1) 0 []
                    HERR) Hzero).
  - exact (proj2 (HalfDelay_only_for_positive_delay quiet_lib (-1) 5 []
                    HERR) Hfive).
Defined.

(** [InitPair(0, 1, 2)] and [InitPair(1, 1, 2)] with 64 colour pairs. *)
Lemma InitPair_guards_the_pair_witness :
  0 <= 0 < 256 /\ 0 <= 1 < 256 /\ 1 <> 0 /\ 1 <= C_int (64 - 1) /\
  InitPair quiet_lib (-1) 64 0 1 2 []
    = ([], inl (Some "Invalid color pair selected")) /\
  InitPair quiet_lib (-1) 64 1 1 2 [] = ([init_pair 1 1 2], inl None).
Proof.
  assert (Hzero : 0 <= 0 < 256) by (split; [discriminate|reflexivity]).
  assert (Hone : 0 <= 1 < 256) by (split; [discriminate|reflexivity]).
  assert (Hnz : 1 <> 0) by discriminate.
  assert (Hle : 1 <= C_int (64 - 1)) by (vm_compute; discriminate).
  split; [exact Hzero|split; [exact Hone|split; [exact Hnz|]]].
  split; [exact Hle|split].
  - exact (proj1 (InitPair_guards_the_pair quiet_lib (-1) 64 0 1 2 [] Hzero)
                 (or_introl eq_refl)).
  - exact (proj2 (InitPair_guards_the_pair quiet_lib (-1) 64 1 1 2 [] Hone)
                 Hnz Hle).
Defined.

(** [StartColor] on a terminal without colours, and on one with. *)
Lemma StartColor_asks_before_it_starts_witness :
  truth (bare_lib [] has_colors) = false /\
  StartColor bare_lib (-1) []
    = ([has_colors], inl (Some "Terminal does not support colors")) /\
  StartColor quiet_lib (-1) [] = ([has_colors; start_color], inl None).
Proof.
  split; [reflexivity|split].
  - exact (proj1 (StartColor_asks_before_it_starts bare_lib (-1) [])
                 eq_refl).
  - apply (proj2 (StartColor_asks_before_it_starts quiet_lib (-1) [])
                 [has_colors; start_color]).
    split; [reflexivity|split; [discriminate|reflexivity]].
Defined.

(** [GetMouse] on a terminal without a mouse. *)
Lemma GetMouse_event_or_error_witness :
  truth (bare_lib [] has_mouse) = false /\
  GetMouse bare_lib 0 64 []
    = ([has_mouse], inl ([], Some "Mouse support not enabled")).
Proof.
  split; [reflexivity|].
  exact (proj1 (GetMouse_event_or_error bare_lib 0 64 []) eq_refl).
Defined.

(** [Sync(7)] *)
Lemma Sync_dispatch_witness :
  (7 < 1 \/ 7 > 3) /\ Sync quiet_lib 0 7 [] = ([], inl tt).
Proof.
  assert (Hout : 7 < 1 \/ 7 > 3) by (right; reflexivity).
  split; [exact Hout|].
  destruct (Sync_dispatch quiet_lib 0 7 []) as (_ & _ & _ & _ & Hnone).
  exact (Hnone Hout).
Defined.

(** [GetString(-1)] and [GetString(8)] *)
Lemma GetString_needs_positive_length_witness :
  -1 < 0 /\ 8 > 0 /\
  GetString quiet_lib (-1) 0 (-1) [] = ([], inr MakeLenOutOfRange) /\
  GetString quiet_lib (-1) 0 8 []
    = ([wgetnstr 0 8 8], inl ("typed", None)).
Proof.
  assert (Hneg : -1 < 0) by reflexivity.
  assert (Hpos : 8 > 0) by reflexivity.
  split; [exact Hneg|split; [exact Hpos|split]].
  - destruct (GetString_needs_positive_length quiet_lib (-1) 0 (-1) [])
      as (_ & Hmake & _).
    exact (Hmake Hneg).
  - destruct (GetString_needs_positive_length quiet_lib (-1) 0 8 [])
      as (_ & _ & Hcall).
    exact (Hcall Hpos).
Defined.

(** [Spacing] on a menu whose spacing is (1, 1, 1), and on a failing
    library. *)
Lemma Spacing_discards_the_answer_witness :
  r_code (quiet_lib [] (menu_spacing 9)) = 0 /\
  r_ints (quiet_lib [] (menu_spacing 9)) = (1, 1, 1) /\
  Spacing quiet_lib 0 64 9 [] = ([menu_spacing 9], inl (0, 0, 0)) /\
  r_code (bare_lib [] (menu_spacing 9)) <> 0 /\
  Spacing bare_lib 0 64 9 [] = ([menu_spacing 9], inl (0, 0, 0)).
Proof.
  split; [reflexivity|split; [reflexivity|split]].
  - exact (proj1 (Spacing_discards_the_answer quiet_lib 0 64 9 []) eq_refl).
  - assert (Hfail : r_code (bare_lib [] (menu_spacing 9)) <> 0)
      by discriminate.
    split; [exact Hfail|].
    exact (proj2 (Spacing_discards_the_answer bare_lib 0 64 9 []) Hfail).
Defined.

(** [AddChar(ACS_ULCORNER)] with a 32-bit [chtype]. *)
Lemma AddChar_passes_the_character_witness :
  31 <= 32 /\ 0 <= ACS_ULCORNER < 2 ^ 31 /\
  AddChar 32 always_OK 7 [ACS_ULCORNER] []
    = ([] ++ [waddch 7 ACS_ULCORNER], inl tt).
Proof.
  assert (Hbits : 31 <= 32) by discriminate.
  assert (Hch : 0 <= ACS_ULCORNER < 2 ^ 31)
    by (split; [discriminate|reflexivity]).
  split; [exact Hbits|split; [exact Hch|]].
  exact (proj1 (AddChar_passes_the_character 32 always_OK 7 0 0
                  ACS_ULCORNER [] Hbits Hch)).
Defined.

(** [AddChar(65)] returns after one call; [AddChar()] panics after
    none. *)
Lemma one_call_or_none_witness :
  AddChar 32 always_OK 7 [65] [] = ([waddch 7 65], inl tt) /\
  ((exists p : panic, inl tt = inr p /\ [waddch 7 65] = []) \/
   (@inl unit panic tt = inl tt /\
    exists c : DriverCall, [waddch 7 65] = [] ++ [c])).
Proof.
  split; [reflexivity|].
  exact (proj1 (one_call_or_none 32 always_OK GoFmt.Sprintf)
               7 [65] [] [waddch 7 65] (inl tt) eq_refl).
Defined.

(** [Items] on a menu of three items, and on a library whose
    [item_count] answers -1. *)
Lemma Items_reads_count_cells_witness :
  Go_int 64 (r_code (quiet_lib [menu_items 9] (item_count 9))) = 3 /\
  Items quiet_lib 64 9 []
    = ([menu_items 9; item_count 9], inl [101; 102; 103]) /\
  Go_int 64 (r_code (bare_lib [menu_items 9] (item_count 9))) < 0 /\
  Items bare_lib 64 9 []
    = ([menu_items 9; item_count 9], inr MakeLenOutOfRange).
Proof.
  split; [reflexivity|split; [|split; [reflexivity|]]].
  - apply (proj2 (Items_reads_count_cells quiet_lib 64 9 [])).
    + split; [discriminate|vm_compute; discriminate].
    + reflexivity.
  - apply (proj1 (Items_reads_count_cells bare_lib 64 9 [])).
    reflexivity.
Defined.

(** [NewMenu] and [SetItems] on two items made by C, and on a list whose
    second item was allocated by Go. *)
Lemma menu_arrays_are_nil_terminated_witness :
  existsb (is_go_pointer go_heap_from_4096) [101; 102] = false /\
  NewMenu quiet_lib (fun _ => None) go_heap_from_4096 [101; 102] []
    = ([new_menu [101; 102; 0]], inl (0, None)) /\
  existsb (is_go_pointer go_heap_from_4096) [101; 8192] = true /\
  NewMenu quiet_lib (fun _ => None) go_heap_from_4096 [101; 8192] []
    = ([], inr CgoPointerCheck).
Proof.
  split; [reflexivity|split; [|split; [reflexivity|]]].
  - exact (proj1 (proj1 (menu_arrays_are_nil_terminated quiet_lib 64
                           (fun _ => None) go_heap_from_4096
                           9 [101; 102] []) eq_refl)).
  - exact (proj1 (proj2 (menu_arrays_are_nil_terminated quiet_lib 64
                           (fun _ => None) go_heap_from_4096
                           9 [101; 8192] []) eq_refl)).
Defined.
